(** * Conversation history for the chat framework

    A shallow embedding of
    - [react-core/src/services/conversation-service.ts]: the message codec
      and the persistence client ([ConversationService]);
    - [react-core/src/hooks/use-copilot-conversation.ts]: the conversation
      hooks (gating on the configuration, search, sort);
    - [react-core/src/types/conversation.ts]: the data model.

    JavaScript strings are modelled by [string]: a sequence of code units
    below 256, the Latin-1 range of Unicode (a character of [string] is the
    code unit with the same number).  On these strings [toLowerCase],
    [trim], [includes] and the order [<] are modelled as ECMAScript
    defines them; strings with a code unit above 255 are outside the
    model. *)

From Stdlib Require Import String Ascii ZArith NArith List Bool Lia Permutation.
From stdpp Require Import gmap.
Import ListNotations.

Local Open Scope string_scope.

(** ** JavaScript string primitives used by the sources *)

Module JsString.

(** Code of a character. *)
Definition code (c : ascii) : N := N_of_ascii c.

Definition isUpper (c : ascii) : bool :=
  ((65 <=? code c) && (code c <=? 90))%N.

(** The upper-case letters above 127: U+00C0 to U+00DE without the
    multiplication sign U+00D7. *)
Definition isUpperLatin1 (c : ascii) : bool :=
  ((192 <=? code c) && (code c <=? 222) && negb (code c =? 215))%N.

(** [String.prototype.toLowerCase], one character: below 256 the letters
    with a lower case are A-Z and those of [isUpperLatin1], and each has
    its lower case 32 positions further; no mapping depends on the
    neighbours of the character. *)
Definition lowerChar (c : ascii) : ascii :=
  if isUpper c || isUpperLatin1 c then ascii_of_N (code c + 32) else c.

(** [String.prototype.toLowerCase]. *)
Fixpoint toLowerCase (s : string) : string :=
  match s with
  | EmptyString => EmptyString
  | String c s' => String (lowerChar c) (toLowerCase s')
  end.

(** White space and line terminators removed by [trim]; below 256 these
    are TAB, LF, VT, FF, CR, SPACE and the no-break space U+00A0. *)
Definition isSpace (c : ascii) : bool :=
  ((9 <=? code c) && (code c <=? 13) || (code c =? 32) || (code c =? 160))%N.

(** [String.prototype.trimStart]. *)
Fixpoint trimStart (s : string) : string :=
  match s with
  | EmptyString => EmptyString
  | String c s' => if isSpace c then trimStart s' else s
  end.

(** [String.prototype.trimEnd]: a character is dropped when it is white
    space and everything after it has been dropped. *)
Fixpoint trimEnd (s : string) : string :=
  match s with
  | EmptyString => EmptyString
  | String c s' =>
      match trimEnd s' with
      | EmptyString => if isSpace c then EmptyString else String c EmptyString
      | t => String c t
      end
  end.

(** [String.prototype.trim]. *)
Definition trim (s : string) : string := trimEnd (trimStart s).

(** Truthiness of a string: the empty string is the only falsy one. *)
Definition truthy (s : string) : bool :=
  match s with EmptyString => false | _ => true end.

(** [s.startsWith(p)]. *)
Fixpoint startsWith (s p : string) : bool :=
  match p, s with
  | EmptyString, _ => true
  | String _ _, EmptyString => false
  | String a p', String b s' => Ascii.eqb a b && startsWith s' p'
  end.

(** [s.includes(sub)]: [sub] occurs in [s] at some position. *)
Fixpoint includes (s sub : string) : bool :=
  startsWith s sub ||
  match s with
  | EmptyString => false
  | String _ s' => includes s' sub
  end.

(** [a < b] and [a > b] on strings: lexicographic on character codes. *)
Definition lt (a b : string) : bool := String.ltb a b.
Definition gt (a b : string) : bool := String.ltb b a.

(** Equality up to the case of ASCII letters, stated character by
    character and without reference to [toLowerCase]: two characters
    agree when they are equal or when one is an upper-case letter and the
    other is the letter 32 positions further. *)
Definition sameLetter (a b : ascii) : bool :=
  Ascii.eqb a b
  || (isUpper a && (code a + 32 =? code b)%N)
  || (isUpper b && (code b + 32 =? code a)%N).

Fixpoint equalsIgnoreCase (s t : string) : bool :=
  match s, t with
  | EmptyString, EmptyString => true
  | String a s', String b t' => sameLetter a b && equalsIgnoreCase s' t'
  | _, _ => false
  end.

(** A string of ASCII characters without upper-case letters. *)
Fixpoint isLower (s : string) : bool :=
  match s with
  | EmptyString => true
  | String c s' => (code c <? 128)%N && negb (isUpper c) && isLower s'
  end.

(** Every character is white space. *)
Fixpoint isBlank (s : string) : bool :=
  match s with
  | EmptyString => true
  | String c s' => isSpace c && isBlank s'
  end.

End JsString.

(** ** Data model ([types/conversation.ts] and the host message classes) *)

(** Roles of host messages.  The enumeration [MessageRole] belongs to the
    client library; the service names [User], [Assistant] and [System] and
    sends every other enumerator to its [default] branches. *)
Inductive MessageRole : Type :=
| User
| Assistant
| System
| OtherRole (name : string).

(** Host messages, by the kind tests the service applies to them
    ([isTextMessage], [isActionExecutionMessage], [isResultMessage],
    [isAgentStateMessage], [isImageMessage]); [OtherMessage] is a message
    for which all five tests fail.  Only the properties read by the service
    are kept. *)
Inductive Message : Type :=
| TextMessage (id : string) (role : MessageRole) (content : string)
| ActionExecutionMessage (id : string) (name : string)
| ResultMessage (id : string) (result : string)
| AgentStateMessage (id : string) (role : MessageRole) (agentName : string)
| ImageMessage (id : string) (role : MessageRole)
| OtherMessage (id : string).

Definition message_id (m : Message) : string :=
  match m with
  | TextMessage i _ _ | ActionExecutionMessage i _ | ResultMessage i _
  | AgentStateMessage i _ _ | ImageMessage i _ | OtherMessage i => i
  end.

Definition isTextMessage (m : Message) : bool :=
  match m with TextMessage _ _ _ => true | _ => false end.
Definition isActionExecutionMessage (m : Message) : bool :=
  match m with ActionExecutionMessage _ _ => true | _ => false end.
Definition isResultMessage (m : Message) : bool :=
  match m with ResultMessage _ _ => true | _ => false end.
Definition isAgentStateMessage (m : Message) : bool :=
  match m with AgentStateMessage _ _ _ => true | _ => false end.
Definition isImageMessage (m : Message) : bool :=
  match m with ImageMessage _ _ => true | _ => false end.

(** The argument of [new TextMessage({...})] as the decoder builds it.  The
    constructor itself is the client library's; a decoded message is given
    by the properties it is built from.  [None] is [undefined];
    [tp_createdAt] is the string handed to [new Date]. *)
Record TextMessageProps : Type := mkTextMessageProps {
  tp_id : option string;
  tp_content : string;
  tp_role : MessageRole;
  tp_createdAt : option string
}.

(** [messageMetadata] of a persisted message. *)
Record MessageMetadata : Type := mkMessageMetadata {
  md_type : string;
  md_messageId : string;
  md_originalMessage : option Message
}.

(** [ConversationMessage].  [id], [createdAt] and [updatedAt] are assigned
    by the backend: the objects built by [convertCopilotMessageToApiMessage]
    (of type [Omit<ConversationMessage, 'id' | 'createdAt' | 'updatedAt'>])
    do not have them, so these properties are optional here. *)
Record ConversationMessage : Type := mkConversationMessage {
  cm_id : option string;
  cm_conversationId : string;
  cm_userId : string;
  cm_role : string;
  cm_content : string;
  cm_createdAt : option string;
  cm_updatedAt : option string;
  cm_messageMetadata : option MessageMetadata
}.

(** [Conversation].  [messageCount] is an integer count. *)
Record Conversation : Type := mkConversation {
  id : string;
  userId : string;
  title : string;
  createdAt : string;
  updatedAt : string;
  lastMessage : option string;
  messageCount : option Z
}.

(** [Partial<Conversation>]. *)
Record PartialConversation : Type := mkPartialConversation {
  pc_id : option string;
  pc_userId : option string;
  pc_title : option string;
  pc_createdAt : option string;
  pc_updatedAt : option string;
  pc_lastMessage : option string;
  pc_messageCount : option Z
}.

(** [ConversationConfig.endpoints]. *)
Record Endpoints : Type := mkEndpoints {
  ep_conversations : option string;
  ep_messages : option string;
  ep_create : option string;
  ep_delete : option string
}.

(** [ConversationConfig]; an optional property that is absent is [None]. *)
Record ConversationConfig : Type := mkConversationConfig {
  apiBaseUrl : string;
  cfg_userId : string;
  headers : option (gmap string string);
  autoSave : option bool;
  endpoints : option Endpoints
}.

(** ** The message codec ([ConversationService], private methods) *)

Module Codec.

(** [getMessageRole] *)
Definition getMessageRole (message : Message) : MessageRole :=
  match message with
  | TextMessage _ role _ => role
  | AgentStateMessage _ role _ => role
  | ImageMessage _ role => role
  | _ => Assistant
  end.

(** [mapApiRoleToCopilotRole] *)
Definition mapApiRoleToCopilotRole (apiRole : string) : MessageRole :=
  let r := JsString.toLowerCase apiRole in
  if String.eqb r "user" then User
  else if String.eqb r "assistant" then Assistant
  else if String.eqb r "system" then System
  else User.

(** [mapCopilotRoleToApiRole] *)
Definition mapCopilotRoleToApiRole (copilotRole : MessageRole) : string :=
  match copilotRole with
  | User => "user"
  | Assistant => "assistant"
  | System => "system"
  | _ => "user"
  end.

(** [extractMessageContent] *)
Definition extractMessageContent (message : Message) : string :=
  match message with
  | TextMessage _ _ content => content
  | ActionExecutionMessage _ name => "Action: " ++ name
  | ResultMessage _ result => "Result: " ++ result
  | AgentStateMessage _ _ agentName => "Agent State: " ++ agentName
  | ImageMessage _ _ => "[Image Message]"
  | OtherMessage _ => "Unknown message type"
  end.

(** [getMessageType] *)
Definition getMessageType (message : Message) : string :=
  if isTextMessage message then "text"
  else if isActionExecutionMessage message then "action"
  else if isResultMessage message then "result"
  else if isAgentStateMessage message then "agent_state"
  else if isImageMessage message then "image"
  else "unknown".

(** [convertCopilotMessageToApiMessage]; [userId] is [this.config.userId]. *)
Definition convertCopilotMessageToApiMessage
    (userId : string) (message : Message) (conversationId : string)
  : ConversationMessage :=
  {| cm_id := None;
     cm_conversationId := conversationId;
     cm_userId := userId;
     cm_role := mapCopilotRoleToApiRole (getMessageRole message);
     cm_content := extractMessageContent message;
     cm_createdAt := None;
     cm_updatedAt := None;
     cm_messageMetadata :=
       Some {| md_type := getMessageType message;
               md_messageId := message_id message;
               md_originalMessage := Some message |} |}.

(** The test [apiMessage.messageMetadata?.type === 'text' ||
    !apiMessage.messageMetadata] of the decoder. *)
Definition isTextOrUntyped (apiMessage : ConversationMessage) : bool :=
  match cm_messageMetadata apiMessage with
  | Some md => String.eqb (md_type md) "text"
  | None => true
  end.

(** One step of the [map] in [convertApiMessagesToCopilotMessages]. *)
Definition convertApiMessage (apiMessage : ConversationMessage)
  : TextMessageProps :=
  let role := mapApiRoleToCopilotRole (cm_role apiMessage) in
  if isTextOrUntyped apiMessage then
    {| tp_id := cm_id apiMessage;
       tp_content := cm_content apiMessage;
       tp_role := role;
       tp_createdAt := cm_createdAt apiMessage |}
  else
    (* every other type is rebuilt as a text message as well *)
    {| tp_id := cm_id apiMessage;
       tp_content := cm_content apiMessage;
       tp_role := role;
       tp_createdAt := cm_createdAt apiMessage |}.

(** [convertApiMessagesToCopilotMessages] *)
Definition convertApiMessagesToCopilotMessages
    (apiMessages : list ConversationMessage) : list TextMessageProps :=
  List.map convertApiMessage apiMessages.

(** What the backend does with a saved message: it keeps the object and
    assigns [id], [createdAt] and [updatedAt]. *)
Definition stored (sid sCreatedAt sUpdatedAt : string)
    (m : ConversationMessage) : ConversationMessage :=
  {| cm_id := Some sid;
     cm_conversationId := cm_conversationId m;
     cm_userId := cm_userId m;
     cm_role := cm_role m;
     cm_content := cm_content m;
     cm_createdAt := Some sCreatedAt;
     cm_updatedAt := Some sUpdatedAt;
     cm_messageMetadata := cm_messageMetadata m |}.

(** The composition of the round-trip law: the decoder applied to the
    object the encoder built. *)
Definition roundTrip (userId : string) (message : Message)
    (conversationId : string) : list TextMessageProps :=
  convertApiMessagesToCopilotMessages
    [convertCopilotMessageToApiMessage userId message conversationId].

(** The same through the backend, which stores the object under [sid]. *)
Definition roundTripStored (sid sCreatedAt sUpdatedAt : string)
    (userId : string) (message : Message) (conversationId : string)
  : list TextMessageProps :=
  convertApiMessagesToCopilotMessages
    [stored sid sCreatedAt sUpdatedAt
       (convertCopilotMessageToApiMessage userId message conversationId)].

End Codec.


(** ** Promises: state and exceptions

    An asynchronous function is a function of the world it runs in: it
    either resolves with a value or rejects with the value thrown, and in
    both cases leaves a world behind. *)

(** A thrown error object: its [name] and its [message]. *)
Record JsError : Type := mkJsError {
  err_name : string;
  err_message : string
}.

(** [new Error(message)] *)
Definition Error (message : string) : JsError := mkJsError "Error" message.
Definition TypeError (message : string) : JsError := mkJsError "TypeError" message.

Inductive Outcome (A : Type) : Type :=
| Resolved (a : A)
| Rejected (e : JsError).
Arguments Resolved {A} a.
Arguments Rejected {A} e.

Definition Async (W A : Type) : Type := W -> Outcome A * W.

Definition ret {W A} (a : A) : Async W A := fun w => (Resolved a, w).

Definition throw {W A} (e : JsError) : Async W A := fun w => (Rejected e, w).

Definition bind {W A B} (c : Async W A) (k : A -> Async W B) : Async W B :=
  fun w =>
    match c w with
    | (Resolved a, w') => k a w'
    | (Rejected e, w') => (Rejected e, w')
    end.

(** [try { body } catch (error) { handler }] *)
Definition tryCatch {W A} (body : Async W A) (handler : JsError -> Async W A)
  : Async W A :=
  fun w =>
    match body w with
    | (Resolved a, w') => (Resolved a, w')
    | (Rejected e, w') => handler e w'
    end.

Declare Scope async_scope.
Delimit Scope async_scope with async.
Notation "x <- c ;; k" := (bind c (fun x => k))
  (at level 100, c at next level, k at level 200, right associativity)
  : async_scope.
Notation "c ;; k" := (bind c (fun _ => k))
  (at level 100, k at level 200, right associativity) : async_scope.

(** ** HTTP as the service sees it *)

(** Values produced by [response.json()] and by property access on them.
    Numbers are integers. *)
#[warnings="-register-all"]
Inductive JsValue : Type :=
| JsUndefined
| JsNull
| JsBool (b : bool)
| JsNumber (n : Z)
| JsString (s : string)
| JsArray (elements : list JsValue)
| JsObject (fields : list (string * JsValue)).

(** Outcome of [response.json()]: the body does not parse, or its value. *)
Inductive JsonBody : Type :=
| Malformed (e : JsError)
| Parsed (v : JsValue).

Record Response : Type := mkResponse {
  status : Z;
  statusText : string;
  body : JsonBody
}.

(** [response.ok]: the status is in the range 200-299. *)
Definition ok (r : Response) : bool :=
  ((200 <=? status r) && (status r <=? 299))%Z.

(** Outcome of [fetch]: no response (the promise rejects) or a response. *)
Inductive FetchResult : Type :=
| NetworkFailure (e : JsError)
| Responds (r : Response).

(** The value handed to [JSON.stringify] for the request body. *)
Inductive RequestBody : Type :=
| NoBody
| CreateBody (userId title : string)
| MessageBody (apiMessage : ConversationMessage)
| UpdateBody (updates : PartialConversation).

Record Request : Type := mkRequest {
  url : string;
  method : string;
  req_headers : gmap string string;
  req_body : RequestBody
}.

(** One call of [console.error(label, error)]. *)
Record LogEntry : Type := mkLogEntry {
  log_label : string;
  log_error : JsError
}.

(** The world of the service: the requests issued so far, oldest first,
    and the lines written to the console. *)
Record World : Type := mkWorld {
  requests : list Request;
  console : list LogEntry
}.

(** What the service does not decide:
    - [backend]: the answer to a request, given the requests before it;
    - [localeNow]: the value of [new Date().toLocaleString()]. *)
Record Env : Type := mkEnv {
  backend : list Request -> Request -> FetchResult;
  localeNow : string
}.

Local Open Scope async_scope.

(** [fetch(url, init)] *)
Definition fetch (env : Env) (req : Request) : Async World Response :=
  fun w =>
    let w' := {| requests := requests w ++ [req]; console := console w |} in
    match backend env (requests w) req with
    | NetworkFailure e => (Rejected e, w')
    | Responds r => (Resolved r, w')
    end.

(** [response.json()] *)
Definition json (r : Response) : Async World JsValue :=
  match body r with
  | Malformed e => throw e
  | Parsed v => ret v
  end.

(** [console.error(label, error)] *)
Definition console_error (label : string) (error : JsError) : Async World unit :=
  fun w =>
    (Resolved tt,
     {| requests := requests w;
        console := console w ++ [ {| log_label := label; log_error := error |} ] |}).

(** Truthiness. *)
Definition js_truthy (v : JsValue) : bool :=
  match v with
  | JsUndefined | JsNull => false
  | JsBool b => b
  | JsNumber n => negb (n =? 0)%Z
  | JsString s => JsString.truthy s
  | JsArray _ | JsObject _ => true
  end.

(** [a || b] *)
Definition js_or (a b : JsValue) : JsValue := if js_truthy a then a else b.

(** Property lookup in a parsed object: the last binding of a key wins. *)
Fixpoint lookupField (fields : list (string * JsValue)) (key : string) : JsValue :=
  match fields with
  | [] => JsUndefined
  | (k, v) :: rest =>
      match lookupField rest key with
      | JsUndefined => if String.eqb k key then v else JsUndefined
      | found => found
      end
  end.

(** [value.key] for one of the keys [id], [conversationId], [_id]: a
    [TypeError] on [null] and [undefined], [undefined] on values without
    such a property. *)
Definition getProp (value : JsValue) (key : string) : Async World JsValue :=
  match value with
  | JsUndefined | JsNull =>
      throw (TypeError ("Cannot read properties of null or undefined (reading '"
                        ++ key ++ "')"))
  | JsObject fields => ret (lookupField fields key)
  | _ => ret JsUndefined
  end.

(** A template literal prints an absent property as [undefined]. *)
Definition interpolate (o : option string) : string :=
  match o with Some s => s | None => "undefined" end.

(** ** Stored messages in a parsed body

    [const apiMessages: ConversationMessage[] = await response.json()]: the
    parsed body is used at the type [ConversationMessage[]] without a
    check.  The reading below is exact on bodies of that type and on the
    bodies on which the decoder throws; a property holding a value of
    another JSON type than the one declared for it has no counterpart among
    typed messages and is read as absent. *)

(** A property holding a string. *)
Definition stringField (fields : list (string * JsValue)) (key : string)
  : option string :=
  match lookupField fields key with
  | JsString s => Some s
  | _ => None
  end.

Definition stringOrEmpty (o : option string) : string :=
  match o with Some s => s | None => "" end.

(** [apiMessage.messageMetadata]; the nested original message is not
    read. *)
Definition readMetadata (v : JsValue) : option MessageMetadata :=
  match v with
  | JsObject fields =>
      Some {| md_type := stringOrEmpty (stringField fields "type");
              md_messageId := stringOrEmpty (stringField fields "messageId");
              md_originalMessage := None |}
  | _ => None
  end.

(** One element of the array.  [apiMessage.role.toLowerCase()] throws
    unless the element is an object whose [role] is a string: such an
    element has no reading. *)
Definition readApiMessage (v : JsValue) : option ConversationMessage :=
  match v with
  | JsObject fields =>
      match lookupField fields "role" with
      | JsString role =>
          Some {| cm_id := stringField fields "id";
                  cm_conversationId := stringOrEmpty (stringField fields "conversationId");
                  cm_userId := stringOrEmpty (stringField fields "userId");
                  cm_role := role;
                  cm_content := stringOrEmpty (stringField fields "content");
                  cm_createdAt := stringField fields "createdAt";
                  cm_updatedAt := stringField fields "updatedAt";
                  cm_messageMetadata := readMetadata (lookupField fields "messageMetadata") |}
      | _ => None
      end
  | _ => None
  end.

Fixpoint readApiMessages (elements : list JsValue) : option (list ConversationMessage) :=
  match elements with
  | [] => Some []
  | v :: rest =>
      match readApiMessage v, readApiMessages rest with
      | Some m, Some ms => Some (m :: ms)
      | _, _ => None
      end
  end.

(** A stored message as the backend sends it: the JSON object with the
    properties of [ConversationMessage], optional ones left out when
    absent, and the metadata with its [type] and [messageId]. *)
Definition optionalField (key : string) (o : option string)
  : list (string * JsValue) :=
  match o with
  | Some s => [(key, JsString s)]
  | None => []
  end.

Definition metadataToJson (md : MessageMetadata) : JsValue :=
  JsObject [("type", JsString (md_type md)); ("messageId", JsString (md_messageId md))].

Definition messageToJson (m : ConversationMessage) : JsValue :=
  JsObject
    (optionalField "id" (cm_id m)
     ++ [("conversationId", JsString (cm_conversationId m));
         ("userId", JsString (cm_userId m));
         ("role", JsString (cm_role m));
         ("content", JsString (cm_content m))]
     ++ optionalField "createdAt" (cm_createdAt m)
     ++ optionalField "updatedAt" (cm_updatedAt m)
     ++ match cm_messageMetadata m with
        | Some md => [("messageMetadata", metadataToJson md)]
        | None => []
        end)%list.

(** ** The persistence client ([class ConversationService]) *)

Module ConversationService.

Record t : Type := mk { config : ConversationConfig }.

Definition defaultEndpoints : Endpoints :=
  {| ep_conversations := Some "/conversations";
     ep_messages := Some "/messages";
     ep_create := Some "/conversations";
     ep_delete := Some "/conversations" |}.

(** [constructor(config)]: [{ autoSave: true, endpoints: {...}, ...config }].
    The spread is shallow: an [endpoints] object of the caller replaces the
    default one as a whole. *)
Definition new (config : ConversationConfig) : t :=
  {| config :=
       {| apiBaseUrl := apiBaseUrl config;
          cfg_userId := cfg_userId config;
          headers := headers config;
          autoSave := match autoSave config with
                      | Some b => Some b
                      | None => Some true
                      end;
          endpoints := match endpoints config with
                       | Some e => Some e
                       | None => Some defaultEndpoints
                       end |} |}.

(** [this.config.endpoints!]: reading a property of it throws when it is
    absent. *)
Definition endpointsOf (this : t) : Async World Endpoints :=
  match endpoints (config this) with
  | Some e => ret e
  | None => throw (TypeError "Cannot read properties of undefined")
  end.

(** [{ 'Content-Type': 'application/json', ...this.config.headers }] *)
Definition requestHeaders (this : t) : gmap string string :=
  match headers (config this) with
  | Some h => h ∪ {[ "Content-Type" := "application/json" ]}
  | None => {[ "Content-Type" := "application/json" ]}
  end.

(** [getConversations]; the array is returned as parsed. *)
Definition getConversations (env : Env) (this : t) : Async World (list JsValue) :=
  tryCatch
    (ep <- endpointsOf this ;;
     response <- fetch env
       {| url := apiBaseUrl (config this) ++ interpolate (ep_conversations ep)
                 ++ "?userId=" ++ cfg_userId (config this);
          method := "GET";
          req_headers := requestHeaders this;
          req_body := NoBody |} ;;
     if negb (ok response) then
       throw (Error ("Failed to fetch conversations: " ++ statusText response))
     else
       conversations <- json response ;;
       ret (match conversations with
            | JsArray elements => elements
            | _ => []
            end))
    (fun error =>
       console_error "Error fetching conversations:" error ;;
       throw error).

(** [getConversationMessages] *)
Definition getConversationMessages (env : Env) (this : t) (conversationId : string)
  : Async World (list TextMessageProps) :=
  tryCatch
    (ep <- endpointsOf this ;;
     response <- fetch env
       {| url := apiBaseUrl (config this) ++ interpolate (ep_conversations ep)
                 ++ "/" ++ conversationId ++ "/messages";
          method := "GET";
          req_headers := requestHeaders this;
          req_body := NoBody |} ;;
     if negb (ok response) then
       throw (Error ("Failed to fetch conversation messages: " ++ statusText response))
     else
       parsed <- json response ;;
       match parsed with
       | JsArray elements =>
           match readApiMessages elements with
           | Some apiMessages =>
               ret (Codec.convertApiMessagesToCopilotMessages apiMessages)
           | None =>
               throw (TypeError
                 "Cannot read properties of undefined (reading 'toLowerCase')")
           end
       | _ => throw (TypeError "apiMessages.map is not a function")
       end)
    (fun error =>
       console_error "Error fetching conversation messages:" error ;;
       throw error).

(** [title || `Conversation ${new Date().toLocaleString()}`] *)
Definition titleOrDefault (env : Env) (title : option string) : string :=
  match title with
  | Some s => if JsString.truthy s then s else "Conversation " ++ localeNow env
  | None => "Conversation " ++ localeNow env
  end.

(** [createConversation] *)
Definition createConversation (env : Env) (this : t) (title : option string)
  : Async World JsValue :=
  tryCatch
    (ep <- endpointsOf this ;;
     response <- fetch env
       {| url := apiBaseUrl (config this) ++ interpolate (ep_create ep);
          method := "POST";
          req_headers := requestHeaders this;
          req_body := CreateBody (cfg_userId (config this)) (titleOrDefault env title) |} ;;
     if negb (ok response) then
       throw (Error ("Failed to create conversation: " ++ statusText response))
     else
       result <- json response ;;
       a <- getProp result "id" ;;
       b <- getProp result "conversationId" ;;
       c <- getProp result "_id" ;;
       ret (js_or (js_or a b) c))
    (fun error =>
       console_error "Error creating conversation:" error ;;
       throw error).

(** [deleteConversation] *)
Definition deleteConversation (env : Env) (this : t) (conversationId : string)
  : Async World unit :=
  tryCatch
    (ep <- endpointsOf this ;;
     response <- fetch env
       {| url := apiBaseUrl (config this) ++ interpolate (ep_delete ep)
                 ++ "/" ++ conversationId;
          method := "DELETE";
          req_headers := requestHeaders this;
          req_body := NoBody |} ;;
     if negb (ok response) then
       throw (Error ("Failed to delete conversation: " ++ statusText response))
     else ret tt)
    (fun error =>
       console_error "Error deleting conversation:" error ;;
       throw error).

(** [!this.config.autoSave] *)
Definition autoSaveOff (this : t) : bool :=
  match autoSave (config this) with
  | Some b => negb b
  | None => true
  end.

(** [saveMessage] *)
Definition saveMessage (env : Env) (this : t) (message : Message)
    (conversationId : string) : Async World unit :=
  if autoSaveOff this then ret tt
  else
    tryCatch
      (let apiMessage :=
         Codec.convertCopilotMessageToApiMessage
           (cfg_userId (config this)) message conversationId in
       ep <- endpointsOf this ;;
       response <- fetch env
         {| url := apiBaseUrl (config this) ++ interpolate (ep_conversations ep)
                   ++ "/" ++ conversationId ++ "/messages";
            method := "POST";
            req_headers := requestHeaders this;
            req_body := MessageBody apiMessage |} ;;
       if negb (ok response) then
         throw (Error ("Failed to save message: " ++ statusText response))
       else ret tt)
      (fun error =>
         (* the error is not thrown again: saving must not disrupt the chat *)
         console_error "Error saving message:" error).

(** [updateConversation] *)
Definition updateConversation (env : Env) (this : t) (conversationId : string)
    (updates : PartialConversation) : Async World unit :=
  tryCatch
    (ep <- endpointsOf this ;;
     response <- fetch env
       {| url := apiBaseUrl (config this) ++ interpolate (ep_conversations ep)
                 ++ "/" ++ conversationId;
          method := "PATCH";
          req_headers := requestHeaders this;
          req_body := UpdateBody updates |} ;;
     if negb (ok response) then
       throw (Error ("Failed to update conversation: " ++ statusText response))
     else ret tt)
    (fun error =>
       console_error "Error updating conversation:" error ;;
       throw error).

End ConversationService.

(** [createConversationService] *)
Definition createConversationService (config : ConversationConfig)
  : ConversationService.t :=
  ConversationService.new config.

(** ** Arrays in the store

    [sortConversations] copies its argument and sorts the copy in place, so
    arrays are modelled with their identity: a store maps references to
    array contents. *)

Abbreviation Heap := (gmap nat (list Conversation)).

(** Contents of the array behind a reference held by the program. *)
Definition deref (h : Heap) (r : nat) : list Conversation :=
  match h !! r with
  | Some l => l
  | None => []
  end.

(** A new array with the given contents. *)
Definition alloc (l : list Conversation) (h : Heap) : nat * Heap :=
  let r := fresh (dom h) in (r, <[r := l]> h).

(** [Array.prototype.sort(compareFn)]: the order among elements is the
    engine's choice; the model is a stable insertion sort, which moves [x]
    in front of [y] when [compareFn(x, y) <= 0]. *)
Fixpoint insertSorted {A} (compareFn : A -> A -> Z) (x : A) (l : list A) : list A :=
  match l with
  | [] => [x]
  | y :: l' =>
      if (compareFn x y <=? 0)%Z then x :: y :: l'
      else y :: insertSorted compareFn x l'
  end.

Definition Array_sort {A} (compareFn : A -> A -> Z) (l : list A) : list A :=
  fold_right (insertSorted compareFn) [] l.

(** [array.sort(compareFn)] on the store: sorts in place, returns the same
    reference. *)
Definition sortInPlace (compareFn : Conversation -> Conversation -> Z)
    (r : nat) (h : Heap) : nat * Heap :=
  (r, <[r := Array_sort compareFn (deref h r)]> h).

(** ** The conversation hooks ([use-copilot-conversation.ts]) *)

Module Hooks.

(** [ConversationState] *)
Record ConversationState : Type := mkConversationState {
  conversations : list Conversation;
  currentConversationId : option string;
  isLoading : bool;
  error : option string;
  initialized : bool
}.

(** [ConversationMethods], acting on a host world [W]. *)
Record ConversationMethods (W : Type) : Type := mkConversationMethods {
  loadConversations : Async W unit;
  loadConversation : string -> Async W (option (list Message));
  createConversation : option string -> Async W string;
  deleteConversation : string -> Async W unit;
  setCurrentConversation : option string -> Async W unit;
  saveMessage : Message -> Async W unit;
  clearError : Async W unit;
  refreshConversations : Async W unit
}.
Arguments loadConversations {W} _.
Arguments loadConversation {W} _ _.
Arguments createConversation {W} _ _.
Arguments deleteConversation {W} _ _.
Arguments setCurrentConversation {W} _ _.
Arguments saveMessage {W} _ _.
Arguments clearError {W} _.
Arguments refreshConversations {W} _.

(** What [useCopilotContext()] provides to the hooks. *)
Record CopilotContext (W : Type) : Type := mkCopilotContext {
  conversationConfig : option ConversationConfig;
  conversationState : ConversationState;
  conversationMethods : ConversationMethods W
}.
Arguments conversationConfig {W} _.
Arguments conversationState {W} _.
Arguments conversationMethods {W} _.

(** A call whose promise is neither awaited nor caught: what the call does
    to the world happens, its outcome is dropped. *)
Definition notAwaited {W A : Type} (call : Async W A) : Async W unit :=
  fun w => (Resolved tt, snd (call w)).

Section WithContext.
Context {W : Type} (context : CopilotContext W).

(** [isEnabled: !!conversationConfig] *)
Definition isEnabled : bool :=
  match conversationConfig context with
  | Some _ => true
  | None => false
  end.

(** The effect of [useCopilotConversationHistory]: load on mount.  The
    effect calls [loadConversations()] and does not wait for the promise:
    it returns normally whether the load resolves or rejects. *)
Definition autoLoad : Async W unit :=
  if isEnabled && negb (initialized (conversationState context))
     && negb (isLoading (conversationState context))
  then notAwaited (loadConversations (conversationMethods context))
  else ret tt.

(** [refresh] *)
Definition refresh : Async W unit :=
  if negb isEnabled then ret tt
  else refreshConversations (conversationMethods context).

(** [switchToConversation] *)
Definition switchToConversation (conversationId : string) : Async W unit :=
  if negb isEnabled then ret tt
  else
    setCurrentConversation (conversationMethods context) (Some conversationId) ;;
    _ <- loadConversation (conversationMethods context) conversationId ;;
    ret tt.

(** [clearCurrentConversation] *)
Definition clearCurrentConversation : Async W unit :=
  if negb isEnabled then ret tt
  else setCurrentConversation (conversationMethods context) None.

(** [currentConversation]:
    [conversations.find(c => c.id === currentConversationId)] *)
Definition currentConversation : option Conversation :=
  match currentConversationId (conversationState context) with
  | Some current =>
      List.find (fun c => String.eqb (id c) current)
                (conversations (conversationState context))
  | None => None
  end.

(** [createNewConversation] *)
Definition createNewConversation (title : option string) : Async W string :=
  if negb isEnabled then ret ""
  else
    conversationId <- createConversation (conversationMethods context) title ;;
    refreshConversations (conversationMethods context) ;;
    ret conversationId.

(** [removeConversation] *)
Definition removeConversation (conversationId : string) : Async W unit :=
  if negb isEnabled then ret tt
  else deleteConversation (conversationMethods context) conversationId.

(** The predicate of the [filter] in [searchConversations]. *)
Definition matchesQuery (lowerQuery : string) (conversation : Conversation) : bool :=
  JsString.includes (JsString.toLowerCase (title conversation)) lowerQuery
  || match lastMessage conversation with
     | Some m => JsString.includes (JsString.toLowerCase m) lowerQuery
     | None => false
     end.

(** [searchConversations] *)
Definition searchConversations (query : string) : list Conversation :=
  if negb isEnabled || negb (JsString.truthy (JsString.trim query))
  then conversations (conversationState context)
  else
    let lowerQuery := JsString.toLowerCase query in
    List.filter (fun conversation => matchesQuery lowerQuery conversation)
                (conversations (conversationState context)).

(** [filterConversations] *)
Definition filterConversations (predicate : Conversation -> bool)
  : list Conversation :=
  if negb isEnabled then []
  else List.filter (fun conversation => predicate conversation)
                   (conversations (conversationState context)).

(** [<] and [>] on numbers: both are false when a side is [NaN] ([None]). *)
Definition num_lt (a b : option Z) : bool :=
  match a, b with
  | Some x, Some y => (x <? y)%Z
  | _, _ => false
  end.

(** [aValue < bValue ? -1 : aValue > bValue ? 1 : 0] and its mirror image
    for the descending order. *)
Definition byOrder (order : string) (lt gt : bool) : Z :=
  if String.eqb order "asc"
  then (if lt then -1 else if gt then 1 else 0)%Z
  else (if gt then -1 else if lt then 1 else 0)%Z.

(** [a.messageCount || 0] *)
Definition messageCountOrZero (c : Conversation) : option Z :=
  match messageCount c with
  | Some n => Some n
  | None => Some 0%Z
  end.

(** The comparator of [sortConversations]; [getTime s] is
    [new Date(s).getTime()], [None] for [NaN]. *)
Definition compareConversations (getTime : string -> option Z)
    (sortBy order : string) (a b : Conversation) : Z :=
  if String.eqb sortBy "title" then
    let aValue := JsString.toLowerCase (title a) in
    let bValue := JsString.toLowerCase (title b) in
    byOrder order (JsString.lt aValue bValue) (JsString.gt aValue bValue)
  else if String.eqb sortBy "createdAt" then
    let aValue := getTime (createdAt a) in
    let bValue := getTime (createdAt b) in
    byOrder order (num_lt aValue bValue) (num_lt bValue aValue)
  else if String.eqb sortBy "updatedAt" then
    let aValue := getTime (updatedAt a) in
    let bValue := getTime (updatedAt b) in
    byOrder order (num_lt aValue bValue) (num_lt bValue aValue)
  else if String.eqb sortBy "messageCount" then
    let aValue := messageCountOrZero a in
    let bValue := messageCountOrZero b in
    byOrder order (num_lt aValue bValue) (num_lt bValue aValue)
  else 0%Z.

(** [sortConversations(conversations, sortBy = 'updatedAt', order = 'desc')]:
    [conversations] is the reference of the argument array; the result is
    the reference of the array returned. *)
Definition sortConversations (getTime : string -> option Z)
    (conversations : nat) (sortBy order : option string) (h : Heap)
  : nat * Heap :=
  let sortBy := match sortBy with Some s => s | None => "updatedAt" end in
  let order := match order with Some s => s | None => "desc" end in
  if negb isEnabled then alloc [] h
  else
    let (copy, h1) := alloc (deref h conversations) h in
    sortInPlace (compareConversations getTime sortBy order) copy h1.

End WithContext.

End Hooks.

(** ** Requests and environments used to state the properties *)

(** The conversations endpoint a service built from [cfg] uses: the one of
    the caller's [endpoints] object when there is such an object, the
    default otherwise. *)
Definition conversationsEndpoint (cfg : ConversationConfig) : string :=
  match endpoints cfg with
  | Some e => interpolate (ep_conversations e)
  | None => "/conversations"
  end.

(** The save request for [message] in conversation [conversationId]:
    [POST <apiBaseUrl><conversations endpoint>/<conversationId>/messages]
    with the encoded message as body. *)
Definition saveRequest (cfg : ConversationConfig) (message : Message)
    (conversationId : string) : Request :=
  {| url := apiBaseUrl cfg ++ conversationsEndpoint cfg ++ "/"
            ++ conversationId ++ "/messages";
     method := "POST";
     req_headers := ConversationService.requestHeaders (ConversationService.new cfg);
     req_body := MessageBody
       (Codec.convertCopilotMessageToApiMessage (cfg_userId cfg) message conversationId) |}.

(** The line [console.error('Error saving message:', error)]. *)
Definition saveFailureLog (error : JsError) : LogEntry :=
  {| log_label := "Error saving message:"; log_error := error |}.

(** An environment whose backend answers every request with [r]. *)
Definition respondingWith (r : Response) : Env :=
  {| backend := fun _ _ => Responds r;
     localeNow := "1/1/2024, 12:00:00 AM" |}.

(** An environment without network: every [fetch] rejects with [e]. *)
Definition offline (e : JsError) : Env :=
  {| backend := fun _ _ => NetworkFailure e;
     localeNow := "1/1/2024, 12:00:00 AM" |}.

(** A minimal configuration and the empty world. *)
Definition sampleConfig : ConversationConfig :=
  {| apiBaseUrl := "https://api.example.com";
     cfg_userId := "u1";
     headers := None;
     autoSave := None;
     endpoints := None |}.

Definition withAutoSave (b : bool) (cfg : ConversationConfig) : ConversationConfig :=
  {| apiBaseUrl := apiBaseUrl cfg;
     cfg_userId := cfg_userId cfg;
     headers := headers cfg;
     autoSave := Some b;
     endpoints := endpoints cfg |}.

Definition emptyWorld : World := {| requests := []; console := [] |}.

(** The list request of a service built from [cfg]:
    [GET <apiBaseUrl><conversations endpoint>?userId=<userId>]. *)
Definition listRequest (cfg : ConversationConfig) : Request :=
  {| url := apiBaseUrl cfg ++ conversationsEndpoint cfg ++ "?userId=" ++ cfg_userId cfg;
     method := "GET";
     req_headers := ConversationService.requestHeaders (ConversationService.new cfg);
     req_body := NoBody |}.

(** A 204 response: no content, so [response.json()] rejects. *)
Definition noContent : Response :=
  {| status := 204;
     statusText := "No Content";
     body := Malformed (mkJsError "SyntaxError" "Unexpected end of JSON input") |}.

(** Two failures that differ in their status only. *)
Definition notFound : Response :=
  {| status := 404; statusText := ""; body := Parsed JsNull |}.
Definition serverError : Response :=
  {| status := 500; statusText := ""; body := Parsed JsNull |}.

(** ** Contexts used to state the properties of the hooks *)

(** Methods that count their calls: the host world is the number of calls
    made so far. *)
Definition countingMethods : Hooks.ConversationMethods nat :=
  {| Hooks.loadConversations := fun n => (Resolved tt, S n);
     Hooks.loadConversation := fun _ n => (Resolved None, S n);
     Hooks.createConversation := fun _ n => (Resolved "new-id", S n);
     Hooks.deleteConversation := fun _ n => (Resolved tt, S n);
     Hooks.setCurrentConversation := fun _ n => (Resolved tt, S n);
     Hooks.saveMessage := fun _ n => (Resolved tt, S n);
     Hooks.clearError := fun n => (Resolved tt, S n);
     Hooks.refreshConversations := fun n => (Resolved tt, S n) |}.

Definition stateWith (cs : list Conversation) : Hooks.ConversationState :=
  {| Hooks.conversations := cs;
     Hooks.currentConversationId := None;
     Hooks.isLoading := false;
     Hooks.error := None;
     Hooks.initialized := false |}.

(** No configuration was supplied. *)
Definition disabledContext (cs : list Conversation) : Hooks.CopilotContext nat :=
  {| Hooks.conversationConfig := None;
     Hooks.conversationState := stateWith cs;
     Hooks.conversationMethods := countingMethods |}.

Definition enabledContext (cs : list Conversation) : Hooks.CopilotContext nat :=
  {| Hooks.conversationConfig := Some sampleConfig;
     Hooks.conversationState := stateWith cs;
     Hooks.conversationMethods := countingMethods |}.

Definition tripPlanning : Conversation :=
  {| id := "c1"; userId := "u1"; title := "Trip Planning";
     createdAt := "2024-01-01T00:00:00Z"; updatedAt := "2024-01-03T00:00:00Z";
     lastMessage := None; messageCount := Some 4%Z |}.

Definition budgetReview : Conversation :=
  {| id := "c2"; userId := "u1"; title := "Budget Review";
     createdAt := "2024-01-02T00:00:00Z"; updatedAt := "2024-01-02T00:00:00Z";
     lastMessage := Some "Book the trip to Rome"; messageCount := None |}.

(** A stand-in for [new Date(s).getTime()]: no string is a valid date. *)
Definition invalidDate (s : string) : option Z := None.

(** A stand-in for [new Date(s).getTime()] that orders dates by the length
    of their text. *)
Definition lengthDate (s : string) : option Z := Some (Z.of_nat (String.length s)).

From Stdlib Require Import Sorted.

(** ** Further vocabulary for the properties of the client and the hooks *)

(** The endpoints a service built from [cfg] uses for creation and for
    deletion. *)
Definition createEndpoint (cfg : ConversationConfig) : string :=
  match endpoints cfg with
  | Some e => interpolate (ep_create e)
  | None => "/conversations"
  end.

Definition deleteEndpoint (cfg : ConversationConfig) : string :=
  match endpoints cfg with
  | Some e => interpolate (ep_delete e)
  | None => "/conversations"
  end.

(** The same configuration with another [endpoints.messages]. *)
Definition withMessagesEndpoint (m : option string) (cfg : ConversationConfig)
  : ConversationConfig :=
  {| apiBaseUrl := apiBaseUrl cfg;
     cfg_userId := cfg_userId cfg;
     headers := headers cfg;
     autoSave := autoSave cfg;
     endpoints :=
       match endpoints cfg with
       | Some e => Some {| ep_conversations := ep_conversations e;
                           ep_messages := m;
                           ep_create := ep_create e;
                           ep_delete := ep_delete e |}
       | None => None
       end |}.

(** The same configuration with an [endpoints] object of the caller. *)
Definition withEndpoints (e : Endpoints) (cfg : ConversationConfig)
  : ConversationConfig :=
  {| apiBaseUrl := apiBaseUrl cfg;
     cfg_userId := cfg_userId cfg;
     headers := headers cfg;
     autoSave := autoSave cfg;
     endpoints := Some e |}.

(** The same configuration with headers of the caller. *)
Definition withHeaders (h : gmap string string) (cfg : ConversationConfig)
  : ConversationConfig :=
  {| apiBaseUrl := apiBaseUrl cfg;
     cfg_userId := cfg_userId cfg;
     headers := Some h;
     autoSave := autoSave cfg;
     endpoints := endpoints cfg |}.

(** The console line of a failed operation. *)
Definition failureLog (label : string) (error : JsError) : LogEntry :=
  {| log_label := label; log_error := error |}.

(** What the console holds after an operation, given what it held before:
    nothing more when the operation resolved, one line with the error it
    rejected with otherwise. *)
Definition consoleAfter {A} (label : string) (before : list LogEntry)
    (outcome : Outcome A) : list LogEntry :=
  match outcome with
  | Resolved _ => before
  | Rejected e => before ++ [failureLog label e]
  end.

Definition okResponse (v : JsValue) : Response :=
  {| status := 200; statusText := "OK"; body := Parsed v |}.

(** A second stored message. *)
Definition storedQuestion : ConversationMessage :=
  {| cm_id := Some "srv-2";
     cm_conversationId := "c1";
     cm_userId := "u1";
     cm_role := "user";
     cm_content := "where to?";
     cm_createdAt := Some "2024-01-02T00:00:00Z";
     cm_updatedAt := None;
     cm_messageMetadata := None |}.

(** A stored message. *)
Definition storedHello : ConversationMessage :=
  {| cm_id := Some "srv-1";
     cm_conversationId := "c1";
     cm_userId := "u1";
     cm_role := "Assistant";
     cm_content := "hello";
     cm_createdAt := Some "2024-01-01T00:00:00Z";
     cm_updatedAt := Some "2024-01-01T00:00:00Z";
     cm_messageMetadata :=
       Some {| md_type := "action"; md_messageId := "m1"; md_originalMessage := None |} |}.

(** Sort keys. *)
Definition lowerTitle (c : Conversation) : string := JsString.toLowerCase (title c).

Definition countOf (c : Conversation) : Z :=
  match messageCount c with Some n => n | None => 0%Z end.

(** The time of [updatedAt] and of [createdAt], 0 where the date does not
    parse. *)
Definition updatedTime (getTime : string -> option Z) (c : Conversation) : Z :=
  match getTime (updatedAt c) with Some t => t | None => 0%Z end.

Definition createdTime (getTime : string -> option Z) (c : Conversation) : Z :=
  match getTime (createdAt c) with Some t => t | None => 0%Z end.

(** The four keys [sortConversations] knows. *)
Definition knownSortKey (sortBy : string) : bool :=
  String.eqb sortBy "title" || String.eqb sortBy "createdAt"
  || String.eqb sortBy "updatedAt" || String.eqb sortBy "messageCount".

(** The contents of the array [sortConversations] returns. *)
Definition sortedContents {W} (context : Hooks.CopilotContext W)
    (getTime : string -> option Z) (conversations : nat)
    (sortBy order : option string) (h : Heap) : list Conversation :=
  let result := Hooks.sortConversations context getTime conversations sortBy order h in
  deref (snd result) (fst result).

(** A context whose methods fail: each rejects with an error of its own and
    counts the call. *)
Definition failingMethods : Hooks.ConversationMethods nat :=
  {| Hooks.loadConversations := fun n => (Rejected (Error "load"), S n);
     Hooks.loadConversation := fun _ n => (Rejected (Error "loadOne"), S n);
     Hooks.createConversation := fun _ n => (Rejected (Error "create"), S n);
     Hooks.deleteConversation := fun _ n => (Rejected (Error "delete"), S n);
     Hooks.setCurrentConversation := fun _ n => (Resolved tt, S n);
     Hooks.saveMessage := fun _ n => (Rejected (Error "save"), S n);
     Hooks.clearError := fun n => (Resolved tt, S n);
     Hooks.refreshConversations := fun n => (Rejected (Error "refresh"), S n) |}.

Definition failingContext (cs : list Conversation) : Hooks.CopilotContext nat :=
  {| Hooks.conversationConfig := Some sampleConfig;
     Hooks.conversationState := stateWith cs;
     Hooks.conversationMethods := failingMethods |}.

(** A state with a current conversation. *)
Definition contextAt (current : option string) (cs : list Conversation)
  : Hooks.CopilotContext nat :=
  {| Hooks.conversationConfig := Some sampleConfig;
     Hooks.conversationState :=
       {| Hooks.conversations := cs;
          Hooks.currentConversationId := current;
          Hooks.isLoading := false;
          Hooks.error := None;
          Hooks.initialized := true |};
     Hooks.conversationMethods := countingMethods |}.

(** The requests of the other operations of a service built from [cfg]. *)

(** [GET <apiBaseUrl><conversations endpoint>/<conversationId>/messages] *)
Definition messagesRequest (cfg : ConversationConfig) (conversationId : string)
  : Request :=
  {| url := apiBaseUrl cfg ++ conversationsEndpoint cfg ++ "/"
            ++ conversationId ++ "/messages";
     method := "GET";
     req_headers := ConversationService.requestHeaders (ConversationService.new cfg);
     req_body := NoBody |}.

(** [POST <apiBaseUrl><create endpoint>] with the user and the title. *)
Definition createRequest (env : Env) (cfg : ConversationConfig)
    (title : option string) : Request :=
  {| url := apiBaseUrl cfg ++ createEndpoint cfg;
     method := "POST";
     req_headers := ConversationService.requestHeaders (ConversationService.new cfg);
     req_body := CreateBody (cfg_userId cfg)
                   (ConversationService.titleOrDefault env title) |}.

(** [DELETE <apiBaseUrl><delete endpoint>/<conversationId>] *)
Definition deleteRequest (cfg : ConversationConfig) (conversationId : string)
  : Request :=
  {| url := apiBaseUrl cfg ++ deleteEndpoint cfg ++ "/" ++ conversationId;
     method := "DELETE";
     req_headers := ConversationService.requestHeaders (ConversationService.new cfg);
     req_body := NoBody |}.

(** [PATCH <apiBaseUrl><conversations endpoint>/<conversationId>] with the
    updates. *)
Definition updateRequest (cfg : ConversationConfig) (conversationId : string)
    (updates : PartialConversation) : Request :=
  {| url := apiBaseUrl cfg ++ conversationsEndpoint cfg ++ "/" ++ conversationId;
     method := "PATCH";
     req_headers := ConversationService.requestHeaders (ConversationService.new cfg);
     req_body := UpdateBody updates |}.

(** The world after an operation that issued [req] and ended with
    [outcome]. *)
Definition worldAfter {A} (w : World) (req : Request) (label : string)
    (outcome : Outcome A) : World :=
  {| requests := requests w ++ [req];
     console := consoleAfter label (console w) outcome |}.

(** [result.id || result.conversationId || result._id] on an object. *)
Definition idOf (fields : list (string * JsValue)) : JsValue :=
  js_or (js_or (lookupField fields "id") (lookupField fields "conversationId"))
        (lookupField fields "_id").

(** The order named by the argument: ascending for "asc", descending for
    every other value and when the argument is left out. *)
Definition ascending (order : option string) : bool :=
  match order with
  | Some o => String.eqb o "asc"
  | None => false
  end.


(** A stand-in for [new Date(s).getTime()] on the dates of the sample
    conversations: the day of January 2024, [NaN] for any other text. *)
Definition januaryDay (s : string) : option Z :=
  if String.eqb s "2024-01-01T00:00:00Z" then Some 1%Z
  else if String.eqb s "2024-01-02T00:00:00Z" then Some 2%Z
  else if String.eqb s "2024-01-03T00:00:00Z" then Some 3%Z
  else None.

(** Two conversations with titles outside ASCII: "à" (U+00E0) and "É"
    (U+00C9), whose lower case is "é" (U+00E9). *)
Definition titledAGrave : Conversation :=
  {| id := "c3"; userId := "u1"; title := String "224"%char "";
     createdAt := "2024-01-01T00:00:00Z"; updatedAt := "2024-01-01T00:00:00Z";
     lastMessage := None; messageCount := None |}.

Definition titledEAcute : Conversation :=
  {| id := "c4"; userId := "u1"; title := String "201"%char "";
     createdAt := "2024-01-02T00:00:00Z"; updatedAt := "2024-01-02T00:00:00Z";
     lastMessage := None; messageCount := None |}.
(** ** Facts about the string primitives *)

(** Decides the comparisons of character codes in the goal. *)
Ltac code_cases :=
  repeat match goal with
         | |- context [(?x <=? ?y)%N] => destruct (N.leb_spec x y)
         | |- context [(?x <? ?y)%N] => destruct (N.ltb_spec x y)
         | |- context [(?x =? ?y)%N] => destruct (N.eqb_spec x y)
         | H : context [(?x <=? ?y)%N] |- _ => destruct (N.leb_spec x y)
         | H : context [(?x <? ?y)%N] |- _ => destruct (N.ltb_spec x y)
         | H : context [(?x =? ?y)%N] |- _ => destruct (N.eqb_spec x y)
         end;
  simpl in *; try reflexivity; try discriminate; try lia.

Section StringFacts.
Import JsString.

Lemma code_bounded (c : ascii) : (code c < 256)%N.
Proof. apply N_ascii_bounded. Qed.

Lemma code_inj (a b : ascii) : code a = code b -> a = b.
Proof.
  unfold code. intros H.
  rewrite <- (ascii_N_embedding a), <- (ascii_N_embedding b).
  now rewrite H.
Qed.

Lemma ascii_eqb_code (a b : ascii) : Ascii.eqb a b = (code a =? code b)%N.
Proof.
  destruct (Ascii.eqb_spec a b) as [->|Hne].
  - now rewrite N.eqb_refl.
  - symmetry. apply N.eqb_neq. intros H. apply Hne. now apply code_inj.
Qed.

Lemma code_lowerChar (c : ascii) :
  code (lowerChar c) =
    if isUpper c || isUpperLatin1 c then (code c + 32)%N else code c.
Proof.
  unfold lowerChar. destruct (isUpper c || isUpperLatin1 c) eqn:Hu; [|reflexivity].
  unfold code at 1. apply N_ascii_embedding.
  unfold isUpper, isUpperLatin1 in Hu. code_cases.
Qed.

(** Lower-casing and comparing with an ASCII character that is not an
    upper-case letter is comparing up to case. *)
Lemma lowerChar_sameLetter (a b : ascii) :
  (code b <? 128)%N = true ->
  isUpper b = false ->
  Ascii.eqb (lowerChar a) b = sameLetter a b.
Proof.
  intros Hascii Hb. unfold sameLetter. rewrite Hb, andb_false_l, orb_false_r.
  rewrite !ascii_eqb_code, code_lowerChar.
  unfold isUpper, isUpperLatin1 in *. code_cases.
Qed.

Lemma toLowerCase_equalsIgnoreCase (t s : string) :
  isLower t = true ->
  String.eqb (toLowerCase s) t = equalsIgnoreCase s t.
Proof.
  revert s. induction t as [|b t IH]; intros s Ht.
  - destruct s; reflexivity.
  - destruct s as [|a s]; [reflexivity|].
    simpl in Ht. apply andb_prop in Ht as [Hb Ht]. apply andb_prop in Hb as [Hascii Hb].
    apply negb_true_iff in Hb.
    simpl. rewrite lowerChar_sameLetter by assumption.
    rewrite IH by assumption. reflexivity.
Qed.

Lemma trimStart_blank (s : string) : isBlank s = true -> trimStart s = "".
Proof.
  induction s as [|c s IH]; simpl; [reflexivity|].
  intros H. apply andb_prop in H as [Hc Hs]. rewrite Hc. auto.
Qed.

Lemma trimEnd_blank (s : string) : isBlank s = true -> trimEnd s = "".
Proof.
  induction s as [|c s IH]; simpl; [reflexivity|].
  intros H. apply andb_prop in H as [Hc Hs]. rewrite IH, Hc; auto.
Qed.

Lemma trimEnd_empty_blank (s : string) : trimEnd s = "" -> isBlank s = true.
Proof.
  induction s as [|c s IH]; simpl; [reflexivity|].
  destruct (trimEnd s) eqn:E; [|discriminate].
  destruct (isSpace c); [auto | discriminate].
Qed.

Lemma trimStart_nonblank (s : string) :
  isBlank s = false -> isBlank (trimStart s) = false.
Proof.
  induction s as [|c s IH]; simpl; [discriminate|].
  destruct (isSpace c) eqn:Hc; simpl; [auto|].
  intros _. now rewrite Hc.
Qed.

(** [trim] yields the empty string exactly on blank strings. *)
Lemma trim_empty_iff (s : string) : trim s = "" <-> isBlank s = true.
Proof.
  unfold trim. split.
  - intros H. apply trimEnd_empty_blank in H.
    destruct (isBlank s) eqn:E; [reflexivity|].
    apply trimStart_nonblank in E. congruence.
  - intros H. now rewrite trimStart_blank.
Qed.

End StringFacts.

Example toLowerCase_ex : JsString.toLowerCase "Trip Planning" = "trip planning".
Proof. reflexivity. Qed.

Example trim_ex : JsString.trim ("  a b" ++ String "009"%char " ") = "a b".
Proof. reflexivity. Qed.

Example includes_ex : JsString.includes "trip planning" "trip" = true
                      /\ JsString.includes "budget review" "trip" = false.
Proof. split; reflexivity. Qed.

Example encode_text_ex :
  Codec.convertApiMessagesToCopilotMessages
    [Codec.convertCopilotMessageToApiMessage "u1" (TextMessage "m1" User "hi") "c1"]
  = [ {| tp_id := None; tp_content := "hi"; tp_role := User; tp_createdAt := None |} ].
Proof. reflexivity. Qed.


(** ** The message codec *)

Section CodecFacts.
Import Codec.

(** C6. [mapApiRoleToCopilotRole] is a total function on strings: an input
    equal to "user", "assistant" or "system" up to the case of its letters
    is sent to the corresponding host role, and every other input is sent
    to [User]. *)
Theorem mapApiRoleToCopilotRole_total_default_safe (apiRole : string) :
  mapApiRoleToCopilotRole apiRole =
    if JsString.equalsIgnoreCase apiRole "user" then User
    else if JsString.equalsIgnoreCase apiRole "assistant" then Assistant
    else if JsString.equalsIgnoreCase apiRole "system" then System
    else User.
Proof.
  unfold mapApiRoleToCopilotRole.
  rewrite !toLowerCase_equalsIgnoreCase by reflexivity.
  reflexivity.
Qed.

Example mapApiRole_mixed_case :
  mapApiRoleToCopilotRole "AssiStant" = Assistant
  /\ mapApiRoleToCopilotRole "SYSTEM" = System
  /\ mapApiRoleToCopilotRole "tool" = User
  /\ mapApiRoleToCopilotRole "" = User.
Proof. repeat split; reflexivity. Qed.

(** The two role maps compose to the identity on the three wire roles and
    to [User] elsewhere. *)
Lemma mapApiRole_mapCopilotRole (r : MessageRole) :
  mapApiRoleToCopilotRole (mapCopilotRoleToApiRole r) =
    match r with
    | User | Assistant | System => r
    | OtherRole _ => User
    end.
Proof. destruct r; reflexivity. Qed.

Lemma convertApiMessage_fields (apiMessage : ConversationMessage) :
  convertApiMessage apiMessage =
    {| tp_id := cm_id apiMessage;
       tp_content := cm_content apiMessage;
       tp_role := mapApiRoleToCopilotRole (cm_role apiMessage);
       tp_createdAt := cm_createdAt apiMessage |}.
Proof. unfold convertApiMessage. destruct (isTextOrUntyped apiMessage); reflexivity. Qed.

(** C1, as amended.  The encoder records the id of the message in
    [messageMetadata.messageId] and builds a wire object without an id.
    Decoding that object, or the copy the backend stores under an id of its
    own, yields a text message whose id is the wire object's id, whose role
    is the role of the original when that is user, assistant or system
    (action and result messages count as assistant), and whose content is,
    for a text message, exactly the original content. *)
Theorem roundTrip_wire_id_role_content
    (userId conversationId sid sCreatedAt sUpdatedAt : string) :
  (forall m,
     let w := convertCopilotMessageToApiMessage userId m conversationId in
     cm_id w = None
     /\ option_map md_messageId (cm_messageMetadata w) = Some (message_id m))
  /\ (forall m,
       let role := match getMessageRole m with
                   | OtherRole _ => User
                   | r => r
                   end in
       roundTrip userId m conversationId =
         [ {| tp_id := None;
              tp_content := extractMessageContent m;
              tp_role := role;
              tp_createdAt := None |} ]
       /\ roundTripStored sid sCreatedAt sUpdatedAt userId m conversationId =
         [ {| tp_id := Some sid;
              tp_content := extractMessageContent m;
              tp_role := role;
              tp_createdAt := Some sCreatedAt |} ])
  /\ (forall i r c, extractMessageContent (TextMessage i r c) = c)
  /\ (forall i n, getMessageRole (ActionExecutionMessage i n) = Assistant)
  /\ (forall i x, getMessageRole (ResultMessage i x) = Assistant).
Proof.
  split; [|split; [|repeat split]].
  - intros m. split; reflexivity.
  - intros m. unfold roundTrip, roundTripStored, convertApiMessagesToCopilotMessages.
    simpl map. rewrite !convertApiMessage_fields. simpl.
    rewrite mapApiRole_mapCopilotRole.
    destruct (getMessageRole m); split; reflexivity.
Qed.

(** C1, as stated, fails: the wire object has no id, so the decoded message
    does not have the id of the original.  Shown at the text message with id
    "m1", role user and content "hi". *)
Lemma roundTrip_id_not_preserved :
  ~ (forall userId m conversationId,
       exists p,
         roundTrip userId m conversationId = [p]
         /\ tp_id p = Some (message_id m)
         /\ tp_role p = getMessageRole m
         /\ (forall i r c, m = TextMessage i r c -> tp_content p = c)).
Proof.
  intros H.
  destruct (H "u1" (TextMessage "m1" User "hi") "c1") as (p & Hp & Hid & _).
  vm_compute in Hp. injection Hp as <-. discriminate Hid.
Qed.

(** Through the backend the decoded id is the backend's. *)
Example roundTripStored_backend_id :
  roundTripStored "srv-7" "2024-01-01" "2024-01-01" "u1"
    (TextMessage "m1" User "hi") "c1"
  = [ {| tp_id := Some "srv-7"; tp_content := "hi"; tp_role := User;
         tp_createdAt := Some "2024-01-01" |} ].
Proof. reflexivity. Qed.

(** A role outside the three wire roles comes back as [User]. *)
Example roundTrip_other_role :
  roundTrip "u1" (TextMessage "m2" (OtherRole "tool") "x") "c1"
  = [ {| tp_id := None; tp_content := "x"; tp_role := User;
         tp_createdAt := None |} ].
Proof. reflexivity. Qed.

End CodecFacts.

(** ** The persistence client *)

Section ServiceFacts.
Import ConversationService.

Lemma endpointsOf_new (cfg : ConversationConfig) (w : World) :
  exists ep,
    endpointsOf (new cfg) w = (Resolved ep, w)
    /\ interpolate (ep_conversations ep) = conversationsEndpoint cfg.
Proof.
  unfold endpointsOf, new, conversationsEndpoint. simpl.
  destruct (endpoints cfg) as [e|]; eexists; split; reflexivity.
Qed.

Lemma autoSaveOff_new (cfg : ConversationConfig) :
  autoSaveOff (new cfg) =
    match autoSave cfg with Some false => true | _ => false end.
Proof. unfold autoSaveOff, new. simpl. destruct (autoSave cfg) as [[|]|]; reflexivity. Qed.

(** What one call of [saveMessage] does when saving is switched on. *)
Lemma saveMessage_run (env : Env) (cfg : ConversationConfig)
    (m : Message) (conversationId : string) (w : World) :
  autoSave cfg <> Some false ->
  saveMessage env (new cfg) m conversationId w =
    (Resolved tt,
     {| requests := requests w ++ [saveRequest cfg m conversationId];
        console := console w ++
          match backend env (requests w) (saveRequest cfg m conversationId) with
          | NetworkFailure e => [saveFailureLog e]
          | Responds r =>
              if ok r then []
              else [saveFailureLog (Error ("Failed to save message: " ++ statusText r))]
          end |}).
Proof.
  intros Hon. unfold saveMessage. rewrite autoSaveOff_new.
  destruct (autoSave cfg) as [[|]|] eqn:Hs; try congruence.
  all: unfold tryCatch, bind; destruct (endpointsOf_new cfg w) as (ep & -> & Hep).
  all: unfold fetch; cbn [config new apiBaseUrl cfg_userId]; rewrite Hep.
  all: fold (saveRequest cfg m conversationId).
  all: destruct (backend env (requests w) (saveRequest cfg m conversationId)) as [e|r0];
       [ reflexivity | ].
  all: destruct (ok r0); simpl; unfold ret, throw, console_error; simpl;
       rewrite ?app_nil_r; reflexivity.
Qed.


(** C2. [saveMessage] always resolves: whatever the service, the message,
    the conversation id and the backend, the promise is fulfilled.  When the
    transport fails, or the backend answers with a status outside 200-299,
    the only trace of the failure is one line on the console. *)
Theorem saveMessage_never_rejects (env : Env) (m : Message)
    (conversationId : string) (w : World) :
  (forall this, exists w', saveMessage env this m conversationId w = (Resolved tt, w'))
  /\ (forall cfg e,
        autoSave cfg <> Some false ->
        backend env (requests w) (saveRequest cfg m conversationId) = NetworkFailure e ->
        saveMessage env (new cfg) m conversationId w =
          (Resolved tt,
           {| requests := requests w ++ [saveRequest cfg m conversationId];
              console := console w ++ [saveFailureLog e] |}))
  /\ (forall cfg r,
        autoSave cfg <> Some false ->
        backend env (requests w) (saveRequest cfg m conversationId) = Responds r ->
        ok r = false ->
        saveMessage env (new cfg) m conversationId w =
          (Resolved tt,
           {| requests := requests w ++ [saveRequest cfg m conversationId];
              console := console w ++
                [saveFailureLog (Error ("Failed to save message: " ++ statusText r))] |})).
Proof.
  split; [|split].
  - intros this. unfold saveMessage.
    destruct (autoSaveOff this); [eexists; reflexivity|].
    unfold tryCatch, bind, endpointsOf.
    destruct (endpoints (config this)) as [ep|]; [|eexists; reflexivity].
    unfold ret at 1. unfold fetch.
    match goal with |- context [backend ?v ?h ?r] =>
      destruct (backend v h r) as [e|r0] end; [eexists; reflexivity|].
    destruct (ok r0); eexists; reflexivity.
  - intros cfg e Hon Hnet. rewrite saveMessage_run by assumption.
    now rewrite Hnet.
  - intros cfg r Hon Hresp Hok. rewrite saveMessage_run by assumption.
    now rewrite Hresp, Hok.
Qed.

Lemma saveMessage_never_rejects_witness :
  saveMessage (offline (TypeError "Failed to fetch")) (new sampleConfig)
      (TextMessage "m1" User "hi") "c1" emptyWorld
    = (Resolved tt,
       {| requests := [saveRequest sampleConfig (TextMessage "m1" User "hi") "c1"];
          console := [saveFailureLog (TypeError "Failed to fetch")] |})
  /\ saveMessage (respondingWith serverError) (new sampleConfig)
      (TextMessage "m1" User "hi") "c1" emptyWorld
    = (Resolved tt,
       {| requests := [saveRequest sampleConfig (TextMessage "m1" User "hi") "c1"];
          console := [saveFailureLog (Error "Failed to save message: ")] |}).
Proof.
  split.
  - apply (proj1 (proj2 (saveMessage_never_rejects
              (offline (TypeError "Failed to fetch"))
              (TextMessage "m1" User "hi") "c1" emptyWorld))
             sampleConfig (TypeError "Failed to fetch"));
      [discriminate | reflexivity].
  - apply (proj2 (proj2 (saveMessage_never_rejects
              (respondingWith serverError)
              (TextMessage "m1" User "hi") "c1" emptyWorld))
             sampleConfig serverError);
      [discriminate | reflexivity | reflexivity].
Defined.

(** C5. With [autoSave] set to false a call of [saveMessage] resolves at once
    and leaves the world as it was: no request is issued.  With [autoSave]
    set to true a call resolves after exactly one request has been added,
    the [POST] to
    [<apiBaseUrl><conversations endpoint>/<conversationId>/messages]. *)
Theorem saveMessage_autoSave_gate (env : Env) (cfg : ConversationConfig)
    (b : bool) (m : Message) (conversationId : string) (w : World) :
  autoSave cfg = Some b ->
  exists w',
    saveMessage env (new cfg) m conversationId w = (Resolved tt, w')
    /\ (if b
        then requests w' = (requests w ++ [saveRequest cfg m conversationId])%list
             /\ method (saveRequest cfg m conversationId) = "POST"
             /\ url (saveRequest cfg m conversationId) =
                  apiBaseUrl cfg ++ conversationsEndpoint cfg ++ "/"
                  ++ conversationId ++ "/messages"
        else w' = w).
Proof.
  intros Hs. destruct b.
  - eexists. split.
    + apply saveMessage_run. congruence.
    + repeat split.
  - exists w. split; [|reflexivity].
    unfold saveMessage. rewrite autoSaveOff_new, Hs. reflexivity.
Qed.

Lemma saveMessage_autoSave_gate_witness :
  (exists w',
     saveMessage (respondingWith serverError) (new (withAutoSave false sampleConfig))
       (TextMessage "m1" User "hi") "c1" emptyWorld = (Resolved tt, w')
     /\ w' = emptyWorld)
  /\ (exists w',
     saveMessage (respondingWith serverError) (new (withAutoSave true sampleConfig))
       (TextMessage "m1" User "hi") "c1" emptyWorld = (Resolved tt, w')
     /\ requests w' = (requests emptyWorld ++
          [saveRequest (withAutoSave true sampleConfig) (TextMessage "m1" User "hi") "c1"])%list
     /\ method (saveRequest (withAutoSave true sampleConfig)
                  (TextMessage "m1" User "hi") "c1") = "POST"
     /\ url (saveRequest (withAutoSave true sampleConfig)
               (TextMessage "m1" User "hi") "c1") =
          apiBaseUrl (withAutoSave true sampleConfig)
          ++ conversationsEndpoint (withAutoSave true sampleConfig)
          ++ "/" ++ "c1" ++ "/messages").
Proof.
  split.
  - apply (saveMessage_autoSave_gate (respondingWith serverError)
             (withAutoSave false sampleConfig) false
             (TextMessage "m1" User "hi") "c1" emptyWorld).
    reflexivity.
  - apply (saveMessage_autoSave_gate (respondingWith serverError)
             (withAutoSave true sampleConfig) true
             (TextMessage "m1" User "hi") "c1" emptyWorld).
    reflexivity.
Defined.

Example save_url_ex :
  url (saveRequest sampleConfig (TextMessage "m1" User "hi") "c1")
  = "https://api.example.com/conversations/c1/messages".
Proof. reflexivity. Qed.

(** Saving is on when the configuration does not mention [autoSave]. *)
Remark saveMessage_autoSave_default (env : Env) (cfg : ConversationConfig)
    (m : Message) (conversationId : string) (w : World) :
  autoSave cfg = None ->
  requests (snd (saveMessage env (new cfg) m conversationId w))
  = (requests w ++ [saveRequest cfg m conversationId])%list.
Proof. intros Hs. rewrite saveMessage_run by congruence. reflexivity. Qed.

End ServiceFacts.

(** ** Responses outside 200-299, and the list operation *)

Section ResponseFacts.
Import ConversationService.

Context (env : Env) (cfg : ConversationConfig) (w : World).

(** Runs the common prefix of an operation of a service built by [new]:
    the endpoints are read, the request is issued. *)
Ltac issue_request :=
  unfold tryCatch, bind;
  let ep := fresh "ep" in
  let Hep := fresh "Hep" in
  destruct (endpointsOf_new cfg w) as (ep & -> & Hep);
  unfold fetch.

Section Non2xx.
Context (r : Response).
Hypothesis Hall : forall hist req, backend env hist req = Responds r.
Hypothesis Hok : ok r = false.

Lemma getConversations_non2xx :
  fst (getConversations env (new cfg) w)
  = Rejected (Error ("Failed to fetch conversations: " ++ statusText r)).
Proof. unfold getConversations. issue_request. rewrite Hall, Hok. reflexivity. Qed.

Lemma getConversationMessages_non2xx (conversationId : string) :
  fst (getConversationMessages env (new cfg) conversationId w)
  = Rejected (Error ("Failed to fetch conversation messages: " ++ statusText r)).
Proof. unfold getConversationMessages. issue_request. rewrite Hall, Hok. reflexivity. Qed.

Lemma createConversation_non2xx (title : option string) :
  fst (createConversation env (new cfg) title w)
  = Rejected (Error ("Failed to create conversation: " ++ statusText r)).
Proof. unfold createConversation. issue_request. rewrite Hall, Hok. reflexivity. Qed.

Lemma deleteConversation_non2xx (conversationId : string) :
  fst (deleteConversation env (new cfg) conversationId w)
  = Rejected (Error ("Failed to delete conversation: " ++ statusText r)).
Proof. unfold deleteConversation. issue_request. rewrite Hall, Hok. reflexivity. Qed.

Lemma updateConversation_non2xx (conversationId : string) (updates : PartialConversation) :
  fst (updateConversation env (new cfg) conversationId updates w)
  = Rejected (Error ("Failed to update conversation: " ++ statusText r)).
Proof. unfold updateConversation. issue_request. rewrite Hall, Hok. reflexivity. Qed.

End Non2xx.

(** [getConversations] on a response with a status in 200-299. *)
Lemma getConversations_2xx (r : Response) :
  backend env (requests w) (listRequest cfg) = Responds r ->
  ok r = true ->
  getConversations env (new cfg) w =
    match body r with
    | Parsed v =>
        (Resolved (match v with JsArray elements => elements | _ => [] end),
         {| requests := requests w ++ [listRequest cfg]; console := console w |})
    | Malformed e =>
        (Rejected e,
         {| requests := requests w ++ [listRequest cfg];
            console := console w ++
              [ {| log_label := "Error fetching conversations:"; log_error := e |} ] |})
    end.
Proof.
  intros Hresp Hok. unfold getConversations. issue_request.
  cbn [config new apiBaseUrl cfg_userId]. rewrite Hep.
  fold (listRequest cfg). rewrite Hresp, Hok. simpl negb. cbv iota.
  unfold json. destruct (body r) as [e|v]; reflexivity.
Qed.

End ResponseFacts.

Section ResponseClaims.
Import ConversationService.

(** C4, as amended.  For each of the five operations (list, list-messages,
    create, delete, update) a response with a status outside 200-299 makes
    the operation reject with a plain [Error] whose message is the
    operation's failure text followed by the response's [statusText]; the
    status code is not part of the error. *)
Theorem non2xx_rejects_with_plain_error (env : Env) (cfg : ConversationConfig)
    (w : World) (r : Response) (conversationId : string)
    (title : option string) (updates : PartialConversation) :
  (forall hist req, backend env hist req = Responds r) ->
  ok r = false ->
  fst (getConversations env (new cfg) w)
    = Rejected (mkJsError "Error" ("Failed to fetch conversations: " ++ statusText r))
  /\ fst (getConversationMessages env (new cfg) conversationId w)
    = Rejected (mkJsError "Error" ("Failed to fetch conversation messages: " ++ statusText r))
  /\ fst (createConversation env (new cfg) title w)
    = Rejected (mkJsError "Error" ("Failed to create conversation: " ++ statusText r))
  /\ fst (deleteConversation env (new cfg) conversationId w)
    = Rejected (mkJsError "Error" ("Failed to delete conversation: " ++ statusText r))
  /\ fst (updateConversation env (new cfg) conversationId updates w)
    = Rejected (mkJsError "Error" ("Failed to update conversation: " ++ statusText r)).
Proof.
  intros Hall Hok. repeat split.
  - now apply getConversations_non2xx.
  - now apply getConversationMessages_non2xx.
  - now apply createConversation_non2xx.
  - now apply deleteConversation_non2xx.
  - now apply updateConversation_non2xx.
Qed.

Lemma non2xx_rejects_with_plain_error_witness :
  fst (getConversations (respondingWith notFound) (new sampleConfig) emptyWorld)
    = Rejected (mkJsError "Error" ("Failed to fetch conversations: " ++ statusText notFound))
  /\ fst (getConversationMessages (respondingWith notFound) (new sampleConfig) "c1" emptyWorld)
    = Rejected (mkJsError "Error" ("Failed to fetch conversation messages: " ++ statusText notFound))
  /\ fst (createConversation (respondingWith notFound) (new sampleConfig) (Some "Trip Planning") emptyWorld)
    = Rejected (mkJsError "Error" ("Failed to create conversation: " ++ statusText notFound))
  /\ fst (deleteConversation (respondingWith notFound) (new sampleConfig) "c1" emptyWorld)
    = Rejected (mkJsError "Error" ("Failed to delete conversation: " ++ statusText notFound))
  /\ fst (updateConversation (respondingWith notFound) (new sampleConfig) "c1"
            (mkPartialConversation None None (Some "Budget Review") None None None None)
            emptyWorld)
    = Rejected (mkJsError "Error" ("Failed to update conversation: " ++ statusText notFound)).
Proof.
  apply (non2xx_rejects_with_plain_error (respondingWith notFound) sampleConfig
           emptyWorld notFound "c1" (Some "Trip Planning")
           (mkPartialConversation None None (Some "Budget Review") None None None None)).
  - intros hist req. reflexivity.
  - reflexivity.
Defined.

(** C4, as stated, fails: the error of a failed operation does not carry the
    HTTP status.  No function of the error gives back the status, since the
    responses [notFound] (404) and [serverError] (500), which have the same
    [statusText], make [getConversations] reject with the same error. *)
Lemma non2xx_error_carries_no_status :
  ~ (exists statusOf : JsError -> Z,
       forall r, ok r = false ->
         exists e,
           fst (getConversations (respondingWith r) (new sampleConfig) emptyWorld)
             = Rejected e
           /\ statusOf e = status r).
Proof.
  intros (statusOf & H).
  destruct (H notFound eq_refl) as (e1 & He1 & Hs1).
  destruct (H serverError eq_refl) as (e2 & He2 & Hs2).
  rewrite (getConversations_non2xx (respondingWith notFound) sampleConfig emptyWorld notFound)
    in He1 by (intros; reflexivity).
  rewrite (getConversations_non2xx (respondingWith serverError) sampleConfig emptyWorld serverError)
    in He2 by (intros; reflexivity).
  injection He1 as <-. injection He2 as <-.
  simpl in Hs1, Hs2. congruence.
Qed.

(** C7, as amended.  On a response with a status in 200-299 whose body
    parses as JSON, [getConversations] resolves: with the parsed array when
    the value is an array, with the empty array otherwise. *)
Theorem getConversations_2xx_parsed (env : Env) (cfg : ConversationConfig)
    (w : World) (r : Response) (v : JsValue) :
  backend env (requests w) (listRequest cfg) = Responds r ->
  ok r = true ->
  body r = Parsed v ->
  fst (getConversations env (new cfg) w)
  = Resolved (match v with JsArray elements => elements | _ => [] end).
Proof.
  intros Hresp Hok Hbody.
  rewrite (getConversations_2xx env cfg w r Hresp Hok), Hbody. reflexivity.
Qed.

Lemma getConversations_2xx_parsed_witness :
  fst (getConversations
         (respondingWith (mkResponse 200 "OK" (Parsed (JsArray [JsString "a"]))))
         (new sampleConfig) emptyWorld)
    = Resolved [JsString "a"]
  /\ fst (getConversations
         (respondingWith (mkResponse 200 "OK" (Parsed JsNull)))
         (new sampleConfig) emptyWorld)
    = Resolved []
  /\ fst (getConversations
         (respondingWith (mkResponse 200 "OK" (Parsed (JsArray []))))
         (new sampleConfig) emptyWorld)
    = Resolved [].
Proof.
  split; [|split].
  - apply (getConversations_2xx_parsed
             (respondingWith (mkResponse 200 "OK" (Parsed (JsArray [JsString "a"]))))
             sampleConfig emptyWorld
             (mkResponse 200 "OK" (Parsed (JsArray [JsString "a"])))
             (JsArray [JsString "a"])); reflexivity.
  - apply (getConversations_2xx_parsed
             (respondingWith (mkResponse 200 "OK" (Parsed JsNull)))
             sampleConfig emptyWorld
             (mkResponse 200 "OK" (Parsed JsNull)) JsNull); reflexivity.
  - apply (getConversations_2xx_parsed
             (respondingWith (mkResponse 200 "OK" (Parsed (JsArray []))))
             sampleConfig emptyWorld
             (mkResponse 200 "OK" (Parsed (JsArray []))) (JsArray [])); reflexivity.
Defined.

(** C7, as stated, fails: a response with a status in 200-299 whose body
    does not parse makes [getConversations] reject.  Shown at [noContent],
    the 204 response with an empty body. *)
Lemma getConversations_2xx_unparsable_rejects :
  ~ (forall env cfg w r,
       backend env (requests w) (listRequest cfg) = Responds r ->
       ok r = true ->
       exists l, fst (getConversations env (new cfg) w) = Resolved l).
Proof.
  intros H.
  destruct (H (respondingWith noContent) sampleConfig emptyWorld noContent
              eq_refl eq_refl) as (l & Hl).
  rewrite (getConversations_2xx (respondingWith noContent) sampleConfig
             emptyWorld noContent eq_refl eq_refl) in Hl.
  discriminate Hl.
Qed.

Example getConversations_noContent :
  fst (getConversations (respondingWith noContent) (new sampleConfig) emptyWorld)
  = Rejected (mkJsError "SyntaxError" "Unexpected end of JSON input").
Proof.
  rewrite (getConversations_2xx (respondingWith noContent) sampleConfig
             emptyWorld noContent eq_refl eq_refl).
  reflexivity.
Qed.

End ResponseClaims.

(** ** The hooks without a configuration *)

Section HookFacts.
Import Hooks.

(** C3. Without a conversation configuration [isEnabled] is false and the
    operations of the hooks do nothing: [createNewConversation] resolves
    with the empty string, [removeConversation], [refresh],
    [switchToConversation] and [clearCurrentConversation] resolve at once,
    the load-on-mount effect does not load, and in each case the host world
    is left as it was, so that no method of the context (hence no request)
    is invoked and the current conversation is unchanged. *)
Theorem disabled_operations_are_inert {W : Type} (context : CopilotContext W)
    (w : W) (title : option string) (conversationId query : string)
    (predicate : Conversation -> bool) :
  conversationConfig context = None ->
  isEnabled context = false
  /\ createNewConversation context title w = (Resolved "", w)
  /\ removeConversation context conversationId w = (Resolved tt, w)
  /\ refresh context w = (Resolved tt, w)
  /\ switchToConversation context conversationId w = (Resolved tt, w)
  /\ clearCurrentConversation context w = (Resolved tt, w)
  /\ autoLoad context w = (Resolved tt, w)
  /\ filterConversations context predicate = []
  /\ searchConversations context query = conversations (conversationState context).
Proof.
  intros Hnone.
  assert (Hoff : isEnabled context = false) by (unfold isEnabled; now rewrite Hnone).
  unfold createNewConversation, removeConversation, refresh, switchToConversation,
    clearCurrentConversation, autoLoad, filterConversations, searchConversations.
  rewrite Hoff. simpl. repeat split.
Qed.

Lemma disabled_operations_are_inert_witness :
  isEnabled (disabledContext [tripPlanning]) = false
  /\ createNewConversation (disabledContext [tripPlanning]) (Some "Trip") 0
     = (Resolved "", 0)
  /\ removeConversation (disabledContext [tripPlanning]) "c1" 0 = (Resolved tt, 0)
  /\ refresh (disabledContext [tripPlanning]) 0 = (Resolved tt, 0)
  /\ switchToConversation (disabledContext [tripPlanning]) "c1" 0 = (Resolved tt, 0)
  /\ clearCurrentConversation (disabledContext [tripPlanning]) 0 = (Resolved tt, 0)
  /\ autoLoad (disabledContext [tripPlanning]) 0 = (Resolved tt, 0)
  /\ filterConversations (disabledContext [tripPlanning]) (fun _ => true) = []
  /\ searchConversations (disabledContext [tripPlanning]) "trip"
     = conversations (conversationState (disabledContext [tripPlanning])).
Proof.
  apply (disabled_operations_are_inert (disabledContext [tripPlanning]) 0
           (Some "Trip") "c1" "trip" (fun _ => true)).
  reflexivity.
Defined.

(** With a configuration the same operations do call the methods. *)
Example enabled_createNewConversation :
  createNewConversation (enabledContext []) (Some "Trip") 0 = (Resolved "new-id", 2).
Proof. reflexivity. Qed.

Example enabled_switchToConversation :
  switchToConversation (enabledContext []) "c1" 0 = (Resolved tt, 2).
Proof. reflexivity. Qed.

End HookFacts.

(** ** Search *)

Section SearchFacts.
Import Hooks.


Lemma searchConversations_filter {W : Type} (context : CopilotContext W) (query : string) :
  isEnabled context = true ->
  JsString.isBlank query = false ->
  searchConversations context query =
    List.filter (matchesQuery (JsString.toLowerCase query))
                (conversations (conversationState context)).
Proof.
  intros Hen Hb. unfold searchConversations. rewrite Hen.
  destruct (JsString.trim query) eqn:Ht.
  - apply trim_empty_iff in Ht. congruence.
  - reflexivity.
Qed.

(** C8. Among a conversation titled "Trip Planning" and one titled "Budget
    Review" whose last-message preview does not contain "trip", the search
    for "trip" returns the first one only: titles are compared without
    regard to case. *)
Theorem search_trip_finds_trip_planning {W : Type} (context : CopilotContext W)
    (c1 c2 : Conversation) :
  isEnabled context = true ->
  conversations (conversationState context) = [c1; c2] ->
  title c1 = "Trip Planning" ->
  title c2 = "Budget Review" ->
  match lastMessage c2 with
  | Some m => JsString.includes (JsString.toLowerCase m) "trip"
  | None => false
  end = false ->
  searchConversations context "trip" = [c1].
Proof.
  intros Hen Hcs Ht1 Ht2 Hlast.
  rewrite searchConversations_filter by (assumption || reflexivity).
  rewrite Hcs. cbn [List.filter]. unfold matchesQuery.
  rewrite Ht1, Ht2.
  change (JsString.toLowerCase "trip") with "trip".
  rewrite Hlast. reflexivity.
Qed.

Lemma search_trip_finds_trip_planning_witness :
  searchConversations
    (enabledContext
       [tripPlanning;
        mkConversation "c2" "u1" "Budget Review" "2024-01-02" "2024-01-02"
          (Some "Quarterly numbers") None])
    "trip"
  = [tripPlanning].
Proof.
  apply (search_trip_finds_trip_planning
           (enabledContext
              [tripPlanning;
               mkConversation "c2" "u1" "Budget Review" "2024-01-02" "2024-01-02"
                 (Some "Quarterly numbers") None])
           tripPlanning
           (mkConversation "c2" "u1" "Budget Review" "2024-01-02" "2024-01-02"
              (Some "Quarterly numbers") None));
    reflexivity.
Defined.

(** The query is lower-cased as well. *)
Example search_upper_case_query :
  searchConversations
    (enabledContext
       [tripPlanning;
        mkConversation "c2" "u1" "Budget Review" "2024-01-02" "2024-01-02" None None])
    "TRIP"
  = [tripPlanning].
Proof. reflexivity. Qed.



(** White space is what [trim] removes: a query is blank exactly when
    nothing is left of it. *)
Example blank_queries :
  JsString.isBlank (String "160"%char (String "010"%char " ")) = true
  /\ JsString.trim (String "160"%char (String "010"%char " ")) = ""
  /\ JsString.isBlank " a " = false.
Proof. repeat split. Qed.

(** The preview alone can make a conversation match. *)
Example search_matches_preview_only :
  searchConversations (enabledContext [tripPlanning; budgetReview]) "rome"
  = [budgetReview].
Proof. reflexivity. Qed.

End SearchFacts.

(** ** Sorting a copy *)

Section SortFacts.
Import Hooks.

Lemma insertSorted_perm {A : Type} (compareFn : A -> A -> Z) (x : A) (l : list A) :
  Permutation (x :: l) (insertSorted compareFn x l).
Proof.
  induction l as [|y l IH]; simpl.
  - apply Permutation_refl.
  - destruct (compareFn x y <=? 0)%Z.
    + apply Permutation_refl.
    + eapply Permutation_trans; [apply perm_swap|].
      apply perm_skip, IH.
Qed.

(** Whatever the comparator, sorting rearranges. *)
Lemma Array_sort_perm {A : Type} (compareFn : A -> A -> Z) (l : list A) :
  Permutation l (Array_sort compareFn l).
Proof.
  induction l as [|x l IH]; simpl.
  - apply perm_nil.
  - eapply Permutation_trans; [apply perm_skip, IH|].
    apply insertSorted_perm.
Qed.

Lemma alloc_fresh (l : list Conversation) (h : Heap) :
  fst (alloc l h) ∉ dom h.
Proof. unfold alloc. simpl. apply is_fresh. Qed.

Lemma alloc_lookup_new (l : list Conversation) (h : Heap) :
  snd (alloc l h) !! fst (alloc l h) = Some l.
Proof. unfold alloc. simpl. apply lookup_insert_eq. Qed.

Lemma alloc_lookup_old (l : list Conversation) (h : Heap) (r : nat) :
  r ∈ dom h -> snd (alloc l h) !! r = h !! r.
Proof.
  intros Hr. unfold alloc. simpl. apply lookup_insert_ne.
  intros <-. now apply (is_fresh (dom h)).
Qed.

(** C10. [sortConversations] does not touch its argument.  For an argument
    array [r] with contents [l], the array returned is a new one, every
    array of the store before the call (the argument among them) has the
    contents it had, and the array returned holds a permutation of [l];
    without a configuration it holds nothing. *)
Theorem sortConversations_sorts_a_copy {W : Type} (context : CopilotContext W)
    (getTime : string -> option Z) (r : nat) (sortBy order : option string)
    (h : Heap) (l : list Conversation) :
  h !! r = Some l ->
  let result := sortConversations context getTime r sortBy order h in
  fst result ≠ r
  /\ (fst result ∉ dom h)
  /\ (forall r0, r0 ∈ dom h -> snd result !! r0 = h !! r0)
  /\ snd result !! r = Some l
  /\ exists l',
       snd result !! fst result = Some l'
       /\ if isEnabled context then Permutation l l' else l' = [].
Proof.
  intros Hr result.
  assert (Hdom : r ∈ dom h) by (apply elem_of_dom; eauto).
  assert (Hfresh : (fst result ∉ dom h)
          /\ (forall r0, r0 ∈ dom h -> snd result !! r0 = h !! r0)
          /\ exists l',
               snd result !! fst result = Some l'
               /\ if isEnabled context then Permutation l l' else l' = []).
  { subst result. unfold sortConversations.
    destruct (isEnabled context); simpl negb; cbv iota.
    - pose proof (alloc_fresh (deref h r) h) as Hf.
      pose proof (alloc_lookup_new (deref h r) h) as Hn.
      pose proof (alloc_lookup_old (deref h r) h) as Ho.
      destruct (alloc (deref h r) h) as [copy h1]. simpl in Hf, Hn, Ho.
      unfold sortInPlace. simpl. split; [assumption|]. split.
      + intros r0 Hr0. rewrite lookup_insert_ne; [now apply Ho|].
        intros <-. contradiction.
      + eexists. split; [apply lookup_insert_eq|].
        unfold deref at 1. rewrite Hn.
        unfold deref. rewrite Hr. apply Array_sort_perm.
    - split; [apply alloc_fresh|]. split.
      + intros r0 Hr0. now apply alloc_lookup_old.
      + exists []. split; [apply alloc_lookup_new | reflexivity]. }
  destruct Hfresh as (Hf & Hold & Hnew).
  split; [intros Heq; apply Hf; now rewrite Heq|].
  split; [assumption|]. split; [assumption|].
  split; [now rewrite Hold|assumption].
Qed.

Lemma sortConversations_sorts_a_copy_witness :
  let h : Heap := {[ 0 := [tripPlanning; budgetReview] ]} in
  let result :=
    sortConversations (enabledContext []) lengthDate 0 (Some "title") (Some "asc") h in
  fst result ≠ 0
  /\ (fst result ∉ dom h)
  /\ (forall r0, r0 ∈ dom h -> snd result !! r0 = h !! r0)
  /\ snd result !! 0 = Some [tripPlanning; budgetReview]
  /\ exists l',
       snd result !! fst result = Some l'
       /\ if isEnabled (enabledContext []) then Permutation [tripPlanning; budgetReview] l'
          else l' = [].
Proof.
  apply (sortConversations_sorts_a_copy (enabledContext []) lengthDate 0
           (Some "title") (Some "asc")
           {[ 0 := [tripPlanning; budgetReview] ]} [tripPlanning; budgetReview]).
  reflexivity.
Defined.

(** Sorting by title in ascending order puts "Budget Review" first; the
    argument array keeps its order. *)
Example sort_by_title_asc :
  let h : Heap := {[ 0 := [tripPlanning; budgetReview] ]} in
  let result :=
    sortConversations (enabledContext []) lengthDate 0 (Some "title") (Some "asc") h in
  snd result !! fst result = Some [budgetReview; tripPlanning]
  /\ snd result !! 0 = Some [tripPlanning; budgetReview].
Proof. vm_compute. split; reflexivity. Qed.

(** With the defaults (by [updatedAt], descending) and dates that do not
    parse every comparison gives 0 and the order is kept. *)
Example sort_invalid_dates :
  let h : Heap := {[ 0 := [tripPlanning; budgetReview] ]} in
  let result := sortConversations (enabledContext []) invalidDate 0 None None h in
  snd result !! fst result = Some [tripPlanning; budgetReview].
Proof. vm_compute. reflexivity. Qed.

(** Without a configuration the result is a new empty array. *)
Example sort_disabled :
  let h : Heap := {[ 0 := [tripPlanning; budgetReview] ]} in
  let result := sortConversations (disabledContext []) lengthDate 0 None None h in
  snd result !! fst result = Some []
  /\ snd result !! 0 = Some [tripPlanning; budgetReview].
Proof. vm_compute. split; reflexivity. Qed.

End SortFacts.

(** ** The persistence client: what each operation does *)

Section ClientRuns.
Import ConversationService.

Context (env : Env) (cfg : ConversationConfig) (w : World).

Lemma endpointsOf_new_all :
  exists ep,
    endpointsOf (new cfg) w = (Resolved ep, w)
    /\ interpolate (ep_conversations ep) = conversationsEndpoint cfg
    /\ interpolate (ep_create ep) = createEndpoint cfg
    /\ interpolate (ep_delete ep) = deleteEndpoint cfg.
Proof.
  unfold endpointsOf, new, conversationsEndpoint, createEndpoint, deleteEndpoint.
  simpl. destruct (endpoints cfg) as [e|]; eexists; repeat split.
Qed.

(** Reads the endpoints and names the request of the operation. *)
Ltac start_operation req :=
  unfold tryCatch, bind;
  let ep := fresh "ep" in
  let Hc := fresh "Hc" in
  let Hn := fresh "Hn" in
  let Hd := fresh "Hd" in
  destruct endpointsOf_new_all as (ep & -> & Hc & Hn & Hd);
  unfold fetch; cbn [config new apiBaseUrl cfg_userId];
  rewrite ?Hc, ?Hn, ?Hd; fold req.

Lemma getConversations_run :
  getConversations env (new cfg) w =
    let outcome :=
      match backend env (requests w) (listRequest cfg) with
      | NetworkFailure e => Rejected e
      | Responds r =>
          if ok r then
            match body r with
            | Parsed (JsArray elements) => Resolved elements
            | Parsed _ => Resolved []
            | Malformed e => Rejected e
            end
          else Rejected (Error ("Failed to fetch conversations: " ++ statusText r))
      end in
    (outcome, worldAfter w (listRequest cfg) "Error fetching conversations:" outcome).
Proof.
  unfold getConversations. start_operation (listRequest cfg).
  destruct (backend env (requests w) (listRequest cfg)) as [e|r]; [reflexivity|].
  destruct (ok r); [|reflexivity]. simpl negb. cbv iota.
  unfold json. destruct (body r) as [e|v]; [reflexivity|].
  destruct v; reflexivity.
Qed.

Lemma getConversationMessages_run (conversationId : string) :
  getConversationMessages env (new cfg) conversationId w =
    let outcome :=
      match backend env (requests w) (messagesRequest cfg conversationId) with
      | NetworkFailure e => Rejected e
      | Responds r =>
          if ok r then
            match body r with
            | Parsed (JsArray elements) =>
                match readApiMessages elements with
                | Some l => Resolved (Codec.convertApiMessagesToCopilotMessages l)
                | None =>
                    Rejected (TypeError
                      "Cannot read properties of undefined (reading 'toLowerCase')")
                end
            | Parsed _ => Rejected (TypeError "apiMessages.map is not a function")
            | Malformed e => Rejected e
            end
          else Rejected (Error ("Failed to fetch conversation messages: " ++ statusText r))
      end in
    (outcome,
     worldAfter w (messagesRequest cfg conversationId)
       "Error fetching conversation messages:" outcome).
Proof.
  unfold getConversationMessages. start_operation (messagesRequest cfg conversationId).
  destruct (backend env (requests w) (messagesRequest cfg conversationId)) as [e|r];
    [reflexivity|].
  destruct (ok r); [|reflexivity]. simpl negb. cbv iota.
  unfold json. destruct (body r) as [e|v]; [reflexivity|].
  destruct v; try reflexivity.
  simpl. destruct (readApiMessages elements); reflexivity.
Qed.

Lemma createConversation_run (title : option string) :
  createConversation env (new cfg) title w =
    let outcome :=
      match backend env (requests w) (createRequest env cfg title) with
      | NetworkFailure e => Rejected e
      | Responds r =>
          if ok r then
            match body r with
            | Parsed (JsObject fields) => Resolved (idOf fields)
            | Parsed JsNull | Parsed JsUndefined =>
                Rejected (TypeError
                  "Cannot read properties of null or undefined (reading 'id')")
            | Parsed _ => Resolved JsUndefined
            | Malformed e => Rejected e
            end
          else Rejected (Error ("Failed to create conversation: " ++ statusText r))
      end in
    (outcome,
     worldAfter w (createRequest env cfg title) "Error creating conversation:" outcome).
Proof.
  unfold createConversation. start_operation (createRequest env cfg title).
  destruct (backend env (requests w) (createRequest env cfg title)) as [e|r];
    [reflexivity|].
  destruct (ok r); [|reflexivity]. simpl negb. cbv iota.
  unfold json. destruct (body r) as [e|v]; [reflexivity|].
  destruct v; reflexivity.
Qed.

Lemma deleteConversation_run (conversationId : string) :
  deleteConversation env (new cfg) conversationId w =
    let outcome :=
      match backend env (requests w) (deleteRequest cfg conversationId) with
      | NetworkFailure e => Rejected e
      | Responds r =>
          if ok r then Resolved tt
          else Rejected (Error ("Failed to delete conversation: " ++ statusText r))
      end in
    (outcome,
     worldAfter w (deleteRequest cfg conversationId) "Error deleting conversation:" outcome).
Proof.
  unfold deleteConversation. start_operation (deleteRequest cfg conversationId).
  destruct (backend env (requests w) (deleteRequest cfg conversationId)) as [e|r];
    [reflexivity|].
  destruct (ok r); reflexivity.
Qed.

Lemma updateConversation_run (conversationId : string) (updates : PartialConversation) :
  updateConversation env (new cfg) conversationId updates w =
    let outcome :=
      match backend env (requests w) (updateRequest cfg conversationId updates) with
      | NetworkFailure e => Rejected e
      | Responds r =>
          if ok r then Resolved tt
          else Rejected (Error ("Failed to update conversation: " ++ statusText r))
      end in
    (outcome,
     worldAfter w (updateRequest cfg conversationId updates)
       "Error updating conversation:" outcome).
Proof.
  unfold updateConversation. start_operation (updateRequest cfg conversationId updates).
  destruct (backend env (requests w) (updateRequest cfg conversationId updates)) as [e|r];
    [reflexivity|].
  destruct (ok r); reflexivity.
Qed.

End ClientRuns.

(** ** The persistence client: requests, failures, results *)

Section ClientProperties.
Import ConversationService.

(** X1. Each of the five operations issues exactly one request per call,
    whatever the backend answers: no retry after a failure, no second
    request after a success. *)
Theorem each_operation_issues_one_request (env : Env) (cfg : ConversationConfig)
    (w : World) (conversationId : string) (title : option string)
    (updates : PartialConversation) :
  requests (snd (getConversations env (new cfg) w))
    = (requests w ++ [listRequest cfg])%list
  /\ requests (snd (getConversationMessages env (new cfg) conversationId w))
    = (requests w ++ [messagesRequest cfg conversationId])%list
  /\ requests (snd (createConversation env (new cfg) title w))
    = (requests w ++ [createRequest env cfg title])%list
  /\ requests (snd (deleteConversation env (new cfg) conversationId w))
    = (requests w ++ [deleteRequest cfg conversationId])%list
  /\ requests (snd (updateConversation env (new cfg) conversationId updates w))
    = (requests w ++ [updateRequest cfg conversationId updates])%list.
Proof.
  rewrite getConversations_run, getConversationMessages_run,
    createConversation_run, deleteConversation_run, updateConversation_run.
  repeat split.
Qed.

(** X2. Without a response (the transport fails with [e]) each of the five
    operations writes one line to the console and rejects with [e] itself. *)
Theorem transport_failure_is_logged_and_rethrown (env : Env)
    (cfg : ConversationConfig) (w : World) (e : JsError)
    (conversationId : string) (title : option string)
    (updates : PartialConversation) :
  (forall hist req, backend env hist req = NetworkFailure e) ->
  getConversations env (new cfg) w
    = (Rejected e,
       {| requests := requests w ++ [listRequest cfg];
          console := console w ++ [failureLog "Error fetching conversations:" e] |})
  /\ getConversationMessages env (new cfg) conversationId w
    = (Rejected e,
       {| requests := requests w ++ [messagesRequest cfg conversationId];
          console := console w ++ [failureLog "Error fetching conversation messages:" e] |})
  /\ createConversation env (new cfg) title w
    = (Rejected e,
       {| requests := requests w ++ [createRequest env cfg title];
          console := console w ++ [failureLog "Error creating conversation:" e] |})
  /\ deleteConversation env (new cfg) conversationId w
    = (Rejected e,
       {| requests := requests w ++ [deleteRequest cfg conversationId];
          console := console w ++ [failureLog "Error deleting conversation:" e] |})
  /\ updateConversation env (new cfg) conversationId updates w
    = (Rejected e,
       {| requests := requests w ++ [updateRequest cfg conversationId updates];
          console := console w ++ [failureLog "Error updating conversation:" e] |}).
Proof.
  intros Hoff.
  rewrite getConversations_run, getConversationMessages_run,
    createConversation_run, deleteConversation_run, updateConversation_run.
  rewrite !Hoff. repeat split.
Qed.

Lemma transport_failure_is_logged_and_rethrown_witness :
  getConversations (offline (TypeError "Failed to fetch")) (new sampleConfig) emptyWorld
    = (Rejected (TypeError "Failed to fetch"),
       {| requests := requests emptyWorld ++ [listRequest sampleConfig];
          console := console emptyWorld
            ++ [failureLog "Error fetching conversations:" (TypeError "Failed to fetch")] |})
  /\ getConversationMessages (offline (TypeError "Failed to fetch")) (new sampleConfig)
       "c1" emptyWorld
    = (Rejected (TypeError "Failed to fetch"),
       {| requests := requests emptyWorld ++ [messagesRequest sampleConfig "c1"];
          console := console emptyWorld
            ++ [failureLog "Error fetching conversation messages:"
                  (TypeError "Failed to fetch")] |})
  /\ createConversation (offline (TypeError "Failed to fetch")) (new sampleConfig)
       None emptyWorld
    = (Rejected (TypeError "Failed to fetch"),
       {| requests := requests emptyWorld
            ++ [createRequest (offline (TypeError "Failed to fetch")) sampleConfig None];
          console := console emptyWorld
            ++ [failureLog "Error creating conversation:" (TypeError "Failed to fetch")] |})
  /\ deleteConversation (offline (TypeError "Failed to fetch")) (new sampleConfig)
       "c1" emptyWorld
    = (Rejected (TypeError "Failed to fetch"),
       {| requests := requests emptyWorld ++ [deleteRequest sampleConfig "c1"];
          console := console emptyWorld
            ++ [failureLog "Error deleting conversation:" (TypeError "Failed to fetch")] |})
  /\ updateConversation (offline (TypeError "Failed to fetch")) (new sampleConfig)
       "c1" (mkPartialConversation None None (Some "Budget Review") None None None None)
       emptyWorld
    = (Rejected (TypeError "Failed to fetch"),
       {| requests := requests emptyWorld
            ++ [updateRequest sampleConfig "c1"
                  (mkPartialConversation None None (Some "Budget Review") None None None None)];
          console := console emptyWorld
            ++ [failureLog "Error updating conversation:" (TypeError "Failed to fetch")] |}).
Proof.
  apply (transport_failure_is_logged_and_rethrown
           (offline (TypeError "Failed to fetch")) sampleConfig emptyWorld
           (TypeError "Failed to fetch") "c1" None
           (mkPartialConversation None None (Some "Budget Review") None None None None)).
  intros hist req. reflexivity.
Defined.

(** X3. For each of the five operations the console tells the outcome: an
    operation that resolves writes nothing, an operation that rejects has
    written exactly one line, which holds the error it rejects with. *)
Theorem rejections_are_logged_once (env : Env) (cfg : ConversationConfig)
    (w : World) (conversationId : string) (title : option string)
    (updates : PartialConversation) :
  (let res := getConversations env (new cfg) w in
   console (snd res)
   = consoleAfter "Error fetching conversations:" (console w) (fst res))
  /\ (let res := getConversationMessages env (new cfg) conversationId w in
      console (snd res)
      = consoleAfter "Error fetching conversation messages:" (console w) (fst res))
  /\ (let res := createConversation env (new cfg) title w in
      console (snd res)
      = consoleAfter "Error creating conversation:" (console w) (fst res))
  /\ (let res := deleteConversation env (new cfg) conversationId w in
      console (snd res)
      = consoleAfter "Error deleting conversation:" (console w) (fst res))
  /\ (let res := updateConversation env (new cfg) conversationId updates w in
      console (snd res)
      = consoleAfter "Error updating conversation:" (console w) (fst res)).
Proof.
  rewrite getConversations_run, getConversationMessages_run,
    createConversation_run, deleteConversation_run, updateConversation_run.
  repeat split.
Qed.

(** X4. The title sent by [createConversation] is never empty: a title that
    is given and not empty is sent as it is; without a title, or with the
    empty title, the title sent is "Conversation " followed by the local
    date and time. *)
Theorem createConversation_sends_a_title (env : Env) (cfg : ConversationConfig)
    (w : World) (title : option string) :
  exists t,
    requests (snd (createConversation env (new cfg) title w))
    = (requests w ++
       [ {| url := apiBaseUrl cfg ++ createEndpoint cfg;
            method := "POST";
            req_headers := requestHeaders (new cfg);
            req_body := CreateBody (cfg_userId cfg) t |} ])%list
    /\ t <> ""
    /\ t = match title with
           | Some (String a s) => String a s
           | _ => "Conversation " ++ localeNow env
           end.
Proof.
  exists (titleOrDefault env title). rewrite createConversation_run. simpl.
  split; [reflexivity|].
  unfold titleOrDefault. destruct title as [[|a s]|]; simpl; repeat split; discriminate.
Qed.

End ClientProperties.

Section ClientResults.
Import ConversationService.

Lemma lookupField_absent (fields : list (string * JsValue)) (key : string) :
  (forall k v, In (k, v) fields -> k <> key) ->
  lookupField fields key = JsUndefined.
Proof.
  induction fields as [|[k v] rest IH]; intros Habs; simpl; [reflexivity|].
  rewrite IH by (intros k' v' Hin; apply (Habs k' v'); now right).
  destruct (String.eqb_spec k key) as [->|]; [|reflexivity].
  exfalso. apply (Habs key v); [now left | reflexivity].
Qed.

(** X5. The id [createConversation] resolves with, on a response in 200-299
    whose body is an object: the value of [id] when it is truthy, otherwise
    the value of [conversationId] when that is truthy, otherwise the value
    of [_id]. *)
Theorem createConversation_id_precedence (env : Env) (cfg : ConversationConfig)
    (w : World) (title : option string) (r : Response)
    (fields : list (string * JsValue)) :
  backend env (requests w) (createRequest env cfg title) = Responds r ->
  ok r = true ->
  body r = Parsed (JsObject fields) ->
  exists v,
    createConversation env (new cfg) title w
    = (Resolved v,
       {| requests := requests w ++ [createRequest env cfg title];
          console := console w |})
    /\ (js_truthy (lookupField fields "id") = true -> v = lookupField fields "id")
    /\ (js_truthy (lookupField fields "id") = false ->
        js_truthy (lookupField fields "conversationId") = true ->
        v = lookupField fields "conversationId")
    /\ (js_truthy (lookupField fields "id") = false ->
        js_truthy (lookupField fields "conversationId") = false ->
        v = lookupField fields "_id").
Proof.
  intros Hresp Hok Hbody. exists (idOf fields).
  rewrite createConversation_run, Hresp, Hok, Hbody. split; [reflexivity|].
  unfold idOf, js_or.
  destruct (js_truthy (lookupField fields "id")) eqn:Hid; simpl.
  - rewrite Hid. repeat split; congruence.
  - destruct (js_truthy (lookupField fields "conversationId")); repeat split; congruence.
Qed.

Lemma createConversation_id_precedence_witness :
  exists v,
    createConversation
      (respondingWith (okResponse (JsObject [("_id", JsString "x3");
                                             ("conversationId", JsString "x2");
                                             ("id", JsString "")])))
      (new sampleConfig) (Some "Trip Planning") emptyWorld
    = (Resolved v,
       {| requests := requests emptyWorld ++
            [createRequest
               (respondingWith (okResponse (JsObject [("_id", JsString "x3");
                                                      ("conversationId", JsString "x2");
                                                      ("id", JsString "")])))
               sampleConfig (Some "Trip Planning")];
          console := console emptyWorld |})
    /\ v = JsString "x2".
Proof.
  destruct (createConversation_id_precedence
              (respondingWith (okResponse (JsObject [("_id", JsString "x3");
                                                     ("conversationId", JsString "x2");
                                                     ("id", JsString "")])))
              sampleConfig emptyWorld (Some "Trip Planning")
              (okResponse (JsObject [("_id", JsString "x3");
                                     ("conversationId", JsString "x2");
                                     ("id", JsString "")]))
              [("_id", JsString "x3"); ("conversationId", JsString "x2");
               ("id", JsString "")]
              eq_refl eq_refl eq_refl) as (v & Hrun & _ & Hsecond & _).
  exists v. split; [exact Hrun|].
  apply Hsecond; reflexivity.
Defined.

(** X6. A response in 200-299 whose body is an object without any of the
    keys [id], [conversationId] and [_id] does not make [createConversation]
    fail: it resolves with [undefined] and writes nothing to the console.
    The body [null] makes it reject with a [TypeError]. *)
Theorem createConversation_without_id (env : Env) (cfg : ConversationConfig)
    (w : World) (title : option string) (r : Response) :
  backend env (requests w) (createRequest env cfg title) = Responds r ->
  ok r = true ->
  (forall fields,
     body r = Parsed (JsObject fields) ->
     (forall k v, In (k, v) fields ->
        k <> "id" /\ k <> "conversationId" /\ k <> "_id") ->
     createConversation env (new cfg) title w
     = (Resolved JsUndefined,
        {| requests := requests w ++ [createRequest env cfg title];
           console := console w |}))
  /\ (body r = Parsed JsNull ->
      exists e,
        fst (createConversation env (new cfg) title w) = Rejected e
        /\ err_name e = "TypeError").
Proof.
  intros Hresp Hok. split.
  - intros fields Hbody Habs.
    rewrite createConversation_run, Hresp, Hok, Hbody. simpl.
    unfold idOf.
    rewrite !lookupField_absent; [reflexivity| | |];
      intros k v Hin; destruct (Habs k v Hin) as (H1 & H2 & H3); assumption.
  - intros Hbody. rewrite createConversation_run, Hresp, Hok, Hbody.
    eexists. split; reflexivity.
Qed.

Lemma createConversation_without_id_witness :
  createConversation
    (respondingWith (okResponse (JsObject [("title", JsString "Trip Planning")])))
    (new sampleConfig) None emptyWorld
  = (Resolved JsUndefined,
     {| requests := requests emptyWorld ++
          [createRequest
             (respondingWith (okResponse (JsObject [("title", JsString "Trip Planning")])))
             sampleConfig None];
        console := console emptyWorld |}).
Proof.
  apply (proj1 (createConversation_without_id
                  (respondingWith (okResponse (JsObject [("title", JsString "Trip Planning")])))
                  sampleConfig emptyWorld None
                  (okResponse (JsObject [("title", JsString "Trip Planning")]))
                  eq_refl eq_refl)
           [("title", JsString "Trip Planning")] eq_refl).
  intros k v [Heq|[]]. injection Heq as <- <-. repeat split; discriminate.
Defined.

(** X7. The headers of a request: every header of the configuration is sent
    as configured, [Content-Type] is [application/json] unless the
    configuration sets it, and nothing else is sent. *)
Theorem requestHeaders_of_configuration (cfg : ConversationConfig)
    (h : gmap string string) :
  headers cfg = Some h ->
  (forall k v, h !! k = Some v -> requestHeaders (new cfg) !! k = Some v)
  /\ (h !! "Content-Type" = None ->
      requestHeaders (new cfg) !! "Content-Type" = Some "application/json")
  /\ (forall k v,
        requestHeaders (new cfg) !! k = Some v ->
        h !! k = Some v \/ (k = "Content-Type" /\ v = "application/json")).
Proof.
  intros Hh. unfold requestHeaders, new. simpl. rewrite Hh.
  split; [|split].
  - intros k v Hk. apply lookup_union_Some_l. exact Hk.
  - intros Hnone. rewrite lookup_union_r by exact Hnone.
    apply lookup_singleton_eq.
  - intros k v Hk. apply lookup_union_Some_raw in Hk as [Hk|[_ Hk]]; [now left|].
    right. apply lookup_singleton_Some in Hk as [<- <-]. split; reflexivity.
Qed.

Lemma requestHeaders_of_configuration_witness :
  (forall k v,
     ({[ "Authorization" := "Bearer t"; "Content-Type" := "text/plain" ]}
        : gmap string string) !! k = Some v ->
     requestHeaders
       (new (withHeaders {[ "Authorization" := "Bearer t"; "Content-Type" := "text/plain" ]}
               sampleConfig)) !! k = Some v)
  /\ requestHeaders (new (withHeaders {[ "Authorization" := "Bearer t" ]} sampleConfig))
       !! "Content-Type" = Some "application/json".
Proof.
  split.
  - apply (proj1 (requestHeaders_of_configuration
                    (withHeaders {[ "Authorization" := "Bearer t";
                                    "Content-Type" := "text/plain" ]} sampleConfig)
                    {[ "Authorization" := "Bearer t"; "Content-Type" := "text/plain" ]}
                    eq_refl)).
  - apply (proj1 (proj2 (requestHeaders_of_configuration
                    (withHeaders {[ "Authorization" := "Bearer t" ]} sampleConfig)
                    {[ "Authorization" := "Bearer t" ]} eq_refl))).
    reflexivity.
Defined.

(** Without configured headers only [Content-Type] is sent. *)
Remark requestHeaders_default (cfg : ConversationConfig) :
  headers cfg = None ->
  requestHeaders (new cfg) = {[ "Content-Type" := "application/json" ]}.
Proof. intros Hh. unfold requestHeaders, new. simpl. now rewrite Hh. Qed.

End ClientResults.

Section EndpointProperties.
Import ConversationService.

Lemma requests_withMessagesEndpoint (env : Env) (cfg : ConversationConfig)
    (m : option string) (conversationId : string) (title : option string)
    (updates : PartialConversation) (message : Message) :
  listRequest (withMessagesEndpoint m cfg) = listRequest cfg
  /\ messagesRequest (withMessagesEndpoint m cfg) conversationId
     = messagesRequest cfg conversationId
  /\ createRequest env (withMessagesEndpoint m cfg) title = createRequest env cfg title
  /\ deleteRequest (withMessagesEndpoint m cfg) conversationId
     = deleteRequest cfg conversationId
  /\ updateRequest (withMessagesEndpoint m cfg) conversationId updates
     = updateRequest cfg conversationId updates
  /\ saveRequest (withMessagesEndpoint m cfg) message conversationId
     = saveRequest cfg message conversationId.
Proof.
  unfold listRequest, messagesRequest, createRequest, deleteRequest, updateRequest,
    saveRequest, conversationsEndpoint, createEndpoint, deleteEndpoint,
    requestHeaders, new, withMessagesEndpoint.
  simpl. destruct (endpoints cfg); repeat split.
Qed.

(** X8. The configured [endpoints.messages] is never used: whatever it is
    set to, each of the six operations issues the same request and ends the
    same way.  Messages are read and saved under the conversations
    endpoint, at [<conversations endpoint>/<id>/messages]. *)
Theorem messages_endpoint_is_never_used (env : Env) (cfg : ConversationConfig)
    (m : option string) (w : World) (conversationId : string)
    (title : option string) (updates : PartialConversation) (message : Message) :
  getConversations env (new (withMessagesEndpoint m cfg)) w
    = getConversations env (new cfg) w
  /\ getConversationMessages env (new (withMessagesEndpoint m cfg)) conversationId w
    = getConversationMessages env (new cfg) conversationId w
  /\ createConversation env (new (withMessagesEndpoint m cfg)) title w
    = createConversation env (new cfg) title w
  /\ deleteConversation env (new (withMessagesEndpoint m cfg)) conversationId w
    = deleteConversation env (new cfg) conversationId w
  /\ updateConversation env (new (withMessagesEndpoint m cfg)) conversationId updates w
    = updateConversation env (new cfg) conversationId updates w
  /\ saveMessage env (new (withMessagesEndpoint m cfg)) message conversationId w
    = saveMessage env (new cfg) message conversationId w.
Proof.
  destruct (requests_withMessagesEndpoint env cfg m conversationId title updates message)
    as (H1 & H2 & H3 & H4 & H5 & H6).
  rewrite !getConversations_run, !getConversationMessages_run,
    !createConversation_run, !deleteConversation_run, !updateConversation_run.
  rewrite H1, H2, H3, H4, H5.
  repeat (split; [reflexivity|]).
  destruct (autoSave cfg) as [[|]|] eqn:Hs.
  - rewrite !saveMessage_run by (simpl; congruence). now rewrite H6.
  - unfold saveMessage. rewrite !autoSaveOff_new. simpl. now rewrite Hs.
  - rewrite !saveMessage_run by (simpl; congruence). now rewrite H6.
Qed.

(** X9. An [endpoints] object of the caller replaces the default one as a
    whole: when it does not give [conversations], the default
    [/conversations] is not used and the requests for the list, for the
    messages and for saving go to a path that starts with the text
    [undefined]. *)
Theorem partial_endpoints_lose_the_defaults (env : Env) (cfg : ConversationConfig)
    (e : Endpoints) (w : World) (conversationId : string) (message : Message) :
  endpoints cfg = Some e ->
  ep_conversations e = None ->
  autoSave cfg <> Some false ->
  map url (requests (snd (getConversations env (new cfg) w)))
    = (map url (requests w)
       ++ [(apiBaseUrl cfg ++ "undefined?userId=" ++ cfg_userId cfg)%string])%list
  /\ map url (requests (snd (getConversationMessages env (new cfg) conversationId w)))
    = (map url (requests w)
       ++ [(apiBaseUrl cfg ++ "undefined/" ++ conversationId ++ "/messages")%string])%list
  /\ map url (requests (snd (saveMessage env (new cfg) message conversationId w)))
    = (map url (requests w)
       ++ [(apiBaseUrl cfg ++ "undefined/" ++ conversationId ++ "/messages")%string])%list.
Proof.
  intros He Hnone Hon.
  rewrite getConversations_run, getConversationMessages_run,
    saveMessage_run by assumption.
  simpl. rewrite !map_app. simpl.
  unfold conversationsEndpoint. rewrite He, Hnone. simpl.
  repeat split.
Qed.

Lemma partial_endpoints_lose_the_defaults_witness :
  map url (requests (snd (getConversations (respondingWith notFound)
      (new (withEndpoints (mkEndpoints None None (Some "/new") None) sampleConfig))
      emptyWorld)))
    = (map url (requests emptyWorld)
       ++ [(apiBaseUrl (withEndpoints (mkEndpoints None None (Some "/new") None) sampleConfig)
           ++ "undefined?userId="
           ++ cfg_userId (withEndpoints (mkEndpoints None None (Some "/new") None) sampleConfig))%string])%list
  /\ map url (requests (snd (getConversationMessages (respondingWith notFound)
      (new (withEndpoints (mkEndpoints None None (Some "/new") None) sampleConfig))
      "c1" emptyWorld)))
    = (map url (requests emptyWorld)
       ++ [(apiBaseUrl (withEndpoints (mkEndpoints None None (Some "/new") None) sampleConfig)
           ++ "undefined/" ++ "c1" ++ "/messages")%string])%list
  /\ map url (requests (snd (saveMessage (respondingWith notFound)
      (new (withEndpoints (mkEndpoints None None (Some "/new") None) sampleConfig))
      (TextMessage "m1" User "hi") "c1" emptyWorld)))
    = (map url (requests emptyWorld)
       ++ [(apiBaseUrl (withEndpoints (mkEndpoints None None (Some "/new") None) sampleConfig)
           ++ "undefined/" ++ "c1" ++ "/messages")%string])%list.
Proof.
  apply (partial_endpoints_lose_the_defaults (respondingWith notFound)
           (withEndpoints (mkEndpoints None None (Some "/new") None) sampleConfig)
           (mkEndpoints None None (Some "/new") None) emptyWorld "c1"
           (TextMessage "m1" User "hi"));
    [reflexivity | reflexivity | discriminate].
Defined.

Example partial_endpoints_url :
  map url (requests (snd (getConversations (respondingWith notFound)
      (new (withEndpoints (mkEndpoints None None (Some "/new") None) sampleConfig))
      emptyWorld)))
  = ["https://api.example.comundefined?userId=u1"].
Proof. reflexivity. Qed.

Lemma readApiMessage_messageToJson (m : ConversationMessage) :
  option_map Codec.convertApiMessage (readApiMessage (messageToJson m))
  = Some (Codec.convertApiMessage m).
Proof.
  rewrite (convertApiMessage_fields m).
  destruct m as [mid conv user role content created updated metadata].
  unfold messageToJson, readApiMessage. simpl.
  destruct mid, created, updated, metadata; simpl;
    rewrite convertApiMessage_fields; reflexivity.
Qed.

Lemma readApiMessages_messageToJson (l : list ConversationMessage) :
  option_map Codec.convertApiMessagesToCopilotMessages
    (readApiMessages (map messageToJson l))
  = Some (Codec.convertApiMessagesToCopilotMessages l).
Proof.
  unfold Codec.convertApiMessagesToCopilotMessages.
  induction l as [|m l IH]; [reflexivity|].
  cbn [map readApiMessages].
  pose proof (readApiMessage_messageToJson m) as Hm.
  destruct (readApiMessage (messageToJson m)) as [m'|]; [|discriminate Hm].
  destruct (readApiMessages (map messageToJson l)) as [l'|]; [|discriminate IH].
  simpl in *. injection Hm as ->. injection IH as ->. reflexivity.
Qed.

(** X10. On a response in 200-299 whose body is the array of the stored
    messages [l], [getConversationMessages] resolves with one text message
    per stored message, in the order of the array and with the ids,
    contents and creation dates of the stored messages, and writes nothing
    to the console. *)
Theorem getConversationMessages_decodes_in_order (env : Env)
    (cfg : ConversationConfig) (w : World) (conversationId : string)
    (r : Response) (l : list ConversationMessage) :
  backend env (requests w) (messagesRequest cfg conversationId) = Responds r ->
  ok r = true ->
  body r = Parsed (JsArray (map messageToJson l)) ->
  exists decoded,
    getConversationMessages env (new cfg) conversationId w
    = (Resolved decoded,
       {| requests := requests w ++ [messagesRequest cfg conversationId];
          console := console w |})
    /\ length decoded = length l
    /\ map tp_id decoded = map cm_id l
    /\ map tp_content decoded = map cm_content l
    /\ map tp_createdAt decoded = map cm_createdAt l
    /\ map tp_role decoded
       = map (fun m => Codec.mapApiRoleToCopilotRole (cm_role m)) l.
Proof.
  intros Hresp Hok Hbody.
  exists (Codec.convertApiMessagesToCopilotMessages l).
  rewrite getConversationMessages_run, Hresp, Hok, Hbody.
  pose proof (readApiMessages_messageToJson l) as Hread.
  destruct (readApiMessages (map messageToJson l)) as [l'|]; [|discriminate Hread].
  simpl in Hread. injection Hread as ->.
  split; [reflexivity|].
  unfold Codec.convertApiMessagesToCopilotMessages.
  rewrite length_map, !map_map.
  repeat split; apply map_ext; intros a; now rewrite convertApiMessage_fields.
Qed.

Lemma getConversationMessages_decodes_in_order_witness :
  exists decoded,
    getConversationMessages
      (respondingWith (okResponse (JsArray (map messageToJson [storedQuestion; storedHello]))))
      (new sampleConfig) "c1" emptyWorld
    = (Resolved decoded,
       {| requests := requests emptyWorld ++ [messagesRequest sampleConfig "c1"];
          console := console emptyWorld |})
    /\ length decoded = length [storedQuestion; storedHello]
    /\ map tp_id decoded = map cm_id [storedQuestion; storedHello]
    /\ map tp_content decoded = map cm_content [storedQuestion; storedHello]
    /\ map tp_createdAt decoded = map cm_createdAt [storedQuestion; storedHello]
    /\ map tp_role decoded
       = map (fun m => Codec.mapApiRoleToCopilotRole (cm_role m))
             [storedQuestion; storedHello].
Proof.
  apply (getConversationMessages_decodes_in_order
           (respondingWith (okResponse (JsArray (map messageToJson [storedQuestion; storedHello]))))
           sampleConfig emptyWorld "c1"
           (okResponse (JsArray (map messageToJson [storedQuestion; storedHello])))
           [storedQuestion; storedHello]); reflexivity.
Defined.

(** The two stored messages come back in the order of the array; an empty
    array gives no message; a body that is not an array, or an element
    without a string role, makes the operation reject. *)
Example getConversationMessages_two_messages :
  fst (getConversationMessages
         (respondingWith (okResponse (JsArray (map messageToJson [storedQuestion; storedHello]))))
         (new sampleConfig) "c1" emptyWorld)
  = Resolved
      [ {| tp_id := Some "srv-2"; tp_content := "where to?"; tp_role := User;
           tp_createdAt := Some "2024-01-02T00:00:00Z" |};
        {| tp_id := Some "srv-1"; tp_content := "hello"; tp_role := Assistant;
           tp_createdAt := Some "2024-01-01T00:00:00Z" |} ].
Proof. vm_compute. reflexivity. Qed.

Example getConversationMessages_empty_array :
  fst (getConversationMessages (respondingWith (okResponse (JsArray [])))
         (new sampleConfig) "c1" emptyWorld)
  = Resolved [].
Proof. vm_compute. reflexivity. Qed.

Example getConversationMessages_not_an_array :
  fst (getConversationMessages (respondingWith (okResponse JsNull))
         (new sampleConfig) "c1" emptyWorld)
  = Rejected (TypeError "apiMessages.map is not a function")
  /\ fst (getConversationMessages
            (respondingWith (okResponse (JsArray [JsObject [("content", JsString "x")]])))
            (new sampleConfig) "c1" emptyWorld)
  = Rejected (TypeError "Cannot read properties of undefined (reading 'toLowerCase')").
Proof. vm_compute. split; reflexivity. Qed.

End EndpointProperties.

(** ** The codec: what decoding keeps and what it drops *)

Section CodecProperties.
Import Codec.

(** X11. The decoder does not look at [messageMetadata] (nor at the
    conversation, the user or [updatedAt]): two stored messages with the same
    id, role, content and creation date are rebuilt as the same text
    message, whatever kind of message was saved. *)
Theorem decoder_ignores_metadata (a b : ConversationMessage) :
  cm_id a = cm_id b ->
  cm_role a = cm_role b ->
  cm_content a = cm_content b ->
  cm_createdAt a = cm_createdAt b ->
  convertApiMessagesToCopilotMessages [a] = convertApiMessagesToCopilotMessages [b].
Proof.
  intros Hid Hrole Hcontent Hcreated.
  unfold convertApiMessagesToCopilotMessages. simpl.
  rewrite !convertApiMessage_fields.
  now rewrite Hid, Hrole, Hcontent, Hcreated.
Qed.

Lemma decoder_ignores_metadata_witness :
  convertApiMessagesToCopilotMessages [storedHello]
  = convertApiMessagesToCopilotMessages
      [mkConversationMessage (Some "srv-1") "c9" "u9" "Assistant" "hello"
         (Some "2024-01-01T00:00:00Z") None None].
Proof.
  apply (decoder_ignores_metadata storedHello
           (mkConversationMessage (Some "srv-1") "c9" "u9" "Assistant" "hello"
              (Some "2024-01-01T00:00:00Z") None None));
    reflexivity.
Defined.

(** X12. A decoded message has one of the roles user, assistant and system,
    whatever the stored role is. *)
Theorem decoded_role_is_a_wire_role (apiMessages : list ConversationMessage) :
  Forall (fun p => match tp_role p with
                   | User | Assistant | System => True
                   | OtherRole _ => False
                   end)
         (convertApiMessagesToCopilotMessages apiMessages).
Proof.
  unfold convertApiMessagesToCopilotMessages.
  apply Forall_map, Forall_forall. intros a _.
  rewrite convertApiMessage_fields. simpl.
  unfold mapApiRoleToCopilotRole.
  repeat match goal with |- context [if ?c then _ else _] => destruct c end; exact I.
Qed.

(** X13. From the wire to the host and back, a role is normalised: a role
    that is user, assistant or system up to the case of its letters comes
    back in lower case, every other role comes back as "user". *)
Theorem wire_role_is_normalised (apiRole : string) :
  mapCopilotRoleToApiRole (mapApiRoleToCopilotRole apiRole) =
    if JsString.equalsIgnoreCase apiRole "user"
       || JsString.equalsIgnoreCase apiRole "assistant"
       || JsString.equalsIgnoreCase apiRole "system"
    then JsString.toLowerCase apiRole
    else "user".
Proof.
  unfold mapApiRoleToCopilotRole.
  rewrite <- !toLowerCase_equalsIgnoreCase by reflexivity.
  destruct (String.eqb_spec (JsString.toLowerCase apiRole) "user") as [->|_];
    [reflexivity|].
  destruct (String.eqb_spec (JsString.toLowerCase apiRole) "assistant") as [->|_];
    [reflexivity|].
  destruct (String.eqb_spec (JsString.toLowerCase apiRole) "system") as [->|_];
    reflexivity.
Qed.

(** X14. The role on the wire is always one of "user", "assistant" and
    "system", and the type recorded in the metadata tells the kind of the
    message: it is "text" exactly for text messages. *)
Theorem encoded_role_and_type (userId conversationId : string) (m : Message) :
  let w := convertCopilotMessageToApiMessage userId m conversationId in
  In (cm_role w) ["user"; "assistant"; "system"]
  /\ cm_conversationId w = conversationId
  /\ cm_userId w = userId
  /\ (option_map md_type (cm_messageMetadata w) = Some "text"
      <-> isTextMessage m = true).
Proof.
  simpl. split; [|split; [reflexivity|split; [reflexivity|]]].
  - destruct (getMessageRole m); simpl; auto.
  - destruct m; simpl; split; intros H; (reflexivity || discriminate H).
Qed.

End CodecProperties.

(** ** More on strings: substrings and case *)

Section SubstringFacts.
Import JsString.

Lemma append_cons (x : ascii) (a b : string) : String x a ++ b = String x (a ++ b).
Proof. reflexivity. Qed.

Lemma append_assoc (a b c : string) : (a ++ b) ++ c = a ++ (b ++ c).
Proof.
  induction a as [|x a IH]; [reflexivity|].
  rewrite !append_cons. now rewrite IH.
Qed.

Lemma startsWith_iff (s p : string) :
  startsWith s p = true <-> exists post, s = p ++ post.
Proof.
  revert s. induction p as [|a p IH]; intros s.
  - split; [intros _; now exists s | intros _; destruct s; reflexivity].
  - destruct s as [|b s].
    + split; [discriminate | intros (post & H); discriminate H].
    + cbn [startsWith]. rewrite andb_true_iff, Ascii.eqb_eq, IH. split.
      * intros (-> & post & ->). now exists post.
      * intros (post & H). rewrite append_cons in H. injection H as -> ->.
        split; [reflexivity | now exists post].
Qed.

(** [includes] is the substring relation. *)
Lemma includes_iff (s sub : string) :
  includes s sub = true <-> exists pre post, s = pre ++ sub ++ post.
Proof.
  induction s as [|b s IH].
  - cbn [includes]. rewrite orb_false_r, startsWith_iff. split.
    + intros (post & H). now exists "", post.
    + intros (pre & post & H). destruct pre; [now exists post | discriminate H].
  - cbn [includes]. rewrite orb_true_iff, startsWith_iff, IH. split.
    + intros [(post & H) | (pre & post & H)].
      * now exists "", post.
      * exists (String b pre), post. rewrite append_cons. now rewrite H.
    + intros (pre & post & H). destruct pre as [|x pre].
      * left. now exists post.
      * right. rewrite append_cons in H. injection H as -> ->. now exists pre, post.
Qed.

Lemma truthy_trim (s : string) : truthy (trim s) = negb (isBlank s).
Proof.
  destruct (isBlank s) eqn:Hb.
  - apply trim_empty_iff in Hb. now rewrite Hb.
  - destruct (trim s) eqn:Ht; [|reflexivity].
    apply trim_empty_iff in Ht. congruence.
Qed.

(** Two characters that agree up to case have the same lower case, and
    neither or both are white space. *)
Lemma sameLetter_lowerChar (a b : ascii) :
  sameLetter a b = true -> lowerChar a = lowerChar b /\ isSpace a = isSpace b.
Proof.
  unfold sameLetter. rewrite ascii_eqb_code. intros H. split.
  - apply code_inj. rewrite !code_lowerChar.
    unfold isUpper, isUpperLatin1 in *. code_cases.
  - unfold isSpace, isUpper in *. code_cases.
Qed.

Lemma equalsIgnoreCase_toLowerCase (s t : string) :
  equalsIgnoreCase s t = true ->
  toLowerCase s = toLowerCase t /\ isBlank s = isBlank t.
Proof.
  revert t. induction s as [|a s IH]; intros [|b t]; simpl; try discriminate.
  - split; reflexivity.
  - rewrite andb_true_iff. intros (Hab & Hst).
    destruct (sameLetter_lowerChar a b Hab) as (-> & ->).
    destruct (IH t Hst) as (-> & ->). split; reflexivity.
Qed.

End SubstringFacts.

(** ** Search: what is found *)

Section SearchProperties.
Import Hooks.

Lemma filter_sublist {A : Type} (f : A -> bool) (l : list A) :
  sublist (List.filter f l) l.
Proof.
  induction l as [|x l IH]; simpl; [constructor|].
  destruct (f x); now constructor.
Qed.

Lemma In_searchConversations {W : Type} (context : CopilotContext W)
    (query : string) (c : Conversation) :
  isEnabled context = true ->
  JsString.isBlank query = false ->
  In c (searchConversations context query) <->
  In c (conversations (conversationState context))
  /\ (JsString.includes (JsString.toLowerCase (title c))
                        (JsString.toLowerCase query) = true
      \/ exists m, lastMessage c = Some m
                   /\ JsString.includes (JsString.toLowerCase m)
                                        (JsString.toLowerCase query) = true).
Proof.
  intros Hen Hb. rewrite searchConversations_filter by assumption.
  rewrite filter_In. unfold matchesQuery. rewrite orb_true_iff.
  split; intros (Hin & Hm); (split; [assumption|]).
  - destruct Hm as [Ht|Hl]; [now left|]. right.
    destruct (lastMessage c) as [m|]; [now exists m | discriminate].
  - destruct Hm as [Ht|(m & Hl & Hm)]; [now left|]. right. now rewrite Hl.
Qed.

(** X15. With the feature enabled and a query that is not blank, the search
    returns exactly the conversations whose title or whose last-message
    preview contains the query, case ignored, and it returns them in the
    order of the list. *)
Theorem search_returns_the_matching_conversations {W : Type}
    (context : CopilotContext W) (query : string) :
  isEnabled context = true ->
  JsString.isBlank query = false ->
  (forall c,
     In c (searchConversations context query) <->
     In c (conversations (conversationState context))
     /\ (JsString.includes (JsString.toLowerCase (title c))
                           (JsString.toLowerCase query) = true
         \/ exists m, lastMessage c = Some m
                      /\ JsString.includes (JsString.toLowerCase m)
                                           (JsString.toLowerCase query) = true))
  /\ sublist (searchConversations context query)
             (conversations (conversationState context)).
Proof.
  intros Hen Hb. split.
  - intros c. now apply In_searchConversations.
  - rewrite searchConversations_filter by assumption. apply filter_sublist.
Qed.

Lemma search_returns_the_matching_conversations_witness :
  (forall c,
     In c (searchConversations (enabledContext [tripPlanning; budgetReview]) "Trip") <->
     In c (conversations (conversationState (enabledContext [tripPlanning; budgetReview])))
     /\ (JsString.includes (JsString.toLowerCase (title c))
                           (JsString.toLowerCase "Trip") = true
         \/ exists m, lastMessage c = Some m
                      /\ JsString.includes (JsString.toLowerCase m)
                                           (JsString.toLowerCase "Trip") = true))
  /\ sublist (searchConversations (enabledContext [tripPlanning; budgetReview]) "Trip")
             (conversations (conversationState (enabledContext [tripPlanning; budgetReview]))).
Proof.
  apply (search_returns_the_matching_conversations
           (enabledContext [tripPlanning; budgetReview]) "Trip");
    reflexivity.
Defined.

(** Outside ASCII too the case is ignored: the query "é" finds the title
    "É"; and a query made of a no-break space is blank. *)
Example search_latin1 :
  searchConversations (enabledContext [titledAGrave; titledEAcute]) (String "233"%char "")
  = [titledEAcute]
  /\ searchConversations (enabledContext [titledAGrave; titledEAcute]) (String "160"%char "")
  = [titledAGrave; titledEAcute].
Proof. vm_compute. split; reflexivity. Qed.

(** X16. The case of the query does not matter: two queries that agree up
    to the case of their letters give the same result. *)
Theorem search_ignores_the_case_of_the_query {W : Type}
    (context : CopilotContext W) (query1 query2 : string) :
  JsString.equalsIgnoreCase query1 query2 = true ->
  searchConversations context query1 = searchConversations context query2.
Proof.
  intros Hci. destruct (equalsIgnoreCase_toLowerCase query1 query2 Hci) as (Hl & Hb).
  unfold searchConversations. rewrite !truthy_trim, Hl, Hb. reflexivity.
Qed.

Lemma search_ignores_the_case_of_the_query_witness :
  searchConversations (enabledContext [tripPlanning; budgetReview]) "TRIP plan"
  = searchConversations (enabledContext [tripPlanning; budgetReview]) "trip PLAN".
Proof.
  apply (search_ignores_the_case_of_the_query
           (enabledContext [tripPlanning; budgetReview]) "TRIP plan" "trip PLAN").
  reflexivity.
Defined.

End SearchProperties.

(** ** The hooks with a configuration *)

Section EnabledHooks.
Import Hooks.

(** X18. The current conversation is looked up by its id: when one is
    found, it is a conversation of the list and it has the current id; when
    there is no current id, or no conversation of the list has it (the id of
    a conversation not loaded yet), there is no current conversation. *)
Theorem currentConversation_is_looked_up_by_id {W : Type}
    (context : CopilotContext W) :
  (forall c,
     currentConversation context = Some c ->
     In c (conversations (conversationState context))
     /\ currentConversationId (conversationState context) = Some (id c))
  /\ (currentConversationId (conversationState context) = None ->
      currentConversation context = None)
  /\ (forall current,
        currentConversationId (conversationState context) = Some current ->
        (forall c, In c (conversations (conversationState context)) -> id c <> current) ->
        currentConversation context = None).
Proof.
  unfold currentConversation. split; [|split].
  - intros c Hc.
    destruct (currentConversationId (conversationState context)) as [current|];
      [|discriminate].
    apply find_some in Hc as (Hin & Heq). apply String.eqb_eq in Heq.
    split; [assumption | now rewrite Heq].
  - intros ->. reflexivity.
  - intros current -> Hnone.
    destruct (find _ _) as [c|] eqn:Hf; [|reflexivity].
    apply find_some in Hf as (Hin & Heq). apply String.eqb_eq in Heq.
    now destruct (Hnone c Hin).
Qed.

Lemma currentConversation_is_looked_up_by_id_witness :
  (In budgetReview
      (conversations (conversationState (contextAt (Some "c2") [tripPlanning; budgetReview])))
   /\ currentConversationId (conversationState (contextAt (Some "c2") [tripPlanning; budgetReview]))
      = Some (id budgetReview))
  /\ currentConversation (contextAt (Some "c7") [tripPlanning; budgetReview]) = None.
Proof.
  split.
  - apply (proj1 (currentConversation_is_looked_up_by_id
                    (contextAt (Some "c2") [tripPlanning; budgetReview])) budgetReview).
    reflexivity.
  - apply (proj2 (proj2 (currentConversation_is_looked_up_by_id
                    (contextAt (Some "c7") [tripPlanning; budgetReview]))) "c7");
      [reflexivity|].
    intros c [<-|[<-|[]]]; discriminate.
Defined.

(** X19. The load on mount never fails and happens once: the effect
    returns normally in every case, also when the load rejects; it leaves
    the world as it was once the list is initialized, while a load is
    running and without a configuration; otherwise the world is the one
    that one call of [loadConversations] leaves. *)
Theorem autoLoad_loads_once {W : Type} (context : CopilotContext W) (w : W) :
  fst (autoLoad context w) = Resolved tt
  /\ (isEnabled context = false
      \/ initialized (conversationState context) = true
      \/ isLoading (conversationState context) = true ->
      snd (autoLoad context w) = w)
  /\ (isEnabled context = true ->
      initialized (conversationState context) = false ->
      isLoading (conversationState context) = false ->
      snd (autoLoad context w)
      = snd (loadConversations (conversationMethods context) w)).
Proof.
  unfold autoLoad, notAwaited, ret. split; [|split].
  - destruct (_ && _); reflexivity.
  - intros [->|[->| ->]]; simpl; rewrite ?andb_false_r; reflexivity.
  - intros -> -> ->. reflexivity.
Qed.

Lemma autoLoad_loads_once_witness :
  autoLoad (failingContext []) 0 = (Resolved tt, 1)
  /\ snd (autoLoad (contextAt None [tripPlanning]) 0) = 0.
Proof.
  split.
  - apply injective_projections.
    + apply (proj1 (autoLoad_loads_once (failingContext []) 0)).
    + apply (proj2 (proj2 (autoLoad_loads_once (failingContext []) 0))); reflexivity.
  - apply (proj1 (proj2 (autoLoad_loads_once (contextAt None [tripPlanning]) 0))).
    right. left. reflexivity.
Defined.

(** X20. [createNewConversation] with the feature enabled creates, then
    refreshes the list, then resolves with the new id.  When the creation
    rejects, the list is not refreshed and the error is passed on; when the
    refresh rejects, the operation rejects with that error although the
    conversation was created. *)
Theorem createNewConversation_creates_then_refreshes {W : Type}
    (context : CopilotContext W) (title : option string) (w w1 : W) :
  isEnabled context = true ->
  (forall e,
     createConversation (conversationMethods context) title w = (Rejected e, w1) ->
     createNewConversation context title w = (Rejected e, w1))
  /\ (forall newId e w2,
        createConversation (conversationMethods context) title w = (Resolved newId, w1) ->
        refreshConversations (conversationMethods context) w1 = (Rejected e, w2) ->
        createNewConversation context title w = (Rejected e, w2))
  /\ (forall newId w2,
        createConversation (conversationMethods context) title w = (Resolved newId, w1) ->
        refreshConversations (conversationMethods context) w1 = (Resolved tt, w2) ->
        createNewConversation context title w = (Resolved newId, w2)).
Proof.
  intros Hen. unfold createNewConversation, bind. rewrite Hen. simpl.
  split; [|split].
  - intros e ->. reflexivity.
  - intros newId e w2 -> ->. reflexivity.
  - intros newId w2 -> ->. reflexivity.
Qed.

Lemma createNewConversation_creates_then_refreshes_witness :
  createNewConversation (failingContext []) (Some "Trip") 0
    = (Rejected (Error "create"), 1)
  /\ createNewConversation (enabledContext []) (Some "Trip") 0
    = (Resolved "new-id", 2).
Proof.
  split.
  - apply (proj1 (createNewConversation_creates_then_refreshes
                    (failingContext []) (Some "Trip") 0 1 eq_refl)).
    reflexivity.
  - apply (proj2 (proj2 (createNewConversation_creates_then_refreshes
                    (enabledContext []) (Some "Trip") 0 1 eq_refl)) "new-id" 2);
      reflexivity.
Defined.

(** X21. [switchToConversation] with the feature enabled first makes the
    conversation current and then loads it.  When the load rejects, the
    operation rejects with that error and the switch stays in effect: the
    world is the one left by the switch and the failed load.  When the
    switch itself throws, nothing is loaded. *)
Theorem switchToConversation_switches_then_loads {W : Type}
    (context : CopilotContext W) (conversationId : string) (w w1 : W) :
  isEnabled context = true ->
  (forall e,
     setCurrentConversation (conversationMethods context) (Some conversationId) w
       = (Rejected e, w1) ->
     switchToConversation context conversationId w = (Rejected e, w1))
  /\ (forall e w2,
        setCurrentConversation (conversationMethods context) (Some conversationId) w
          = (Resolved tt, w1) ->
        loadConversation (conversationMethods context) conversationId w1
          = (Rejected e, w2) ->
        switchToConversation context conversationId w = (Rejected e, w2))
  /\ (forall messages w2,
        setCurrentConversation (conversationMethods context) (Some conversationId) w
          = (Resolved tt, w1) ->
        loadConversation (conversationMethods context) conversationId w1
          = (Resolved messages, w2) ->
        switchToConversation context conversationId w = (Resolved tt, w2)).
Proof.
  intros Hen. unfold switchToConversation, bind. rewrite Hen. simpl.
  split; [|split].
  - intros e ->. reflexivity.
  - intros e w2 -> ->. reflexivity.
  - intros messages w2 -> ->. reflexivity.
Qed.

Lemma switchToConversation_switches_then_loads_witness :
  switchToConversation (failingContext []) "c1" 0 = (Rejected (Error "loadOne"), 2)
  /\ switchToConversation (enabledContext []) "c1" 0 = (Resolved tt, 2).
Proof.
  split.
  - apply (proj1 (proj2 (switchToConversation_switches_then_loads
                    (failingContext []) "c1" 0 1 eq_refl)) (Error "loadOne") 2);
      reflexivity.
  - apply (proj2 (proj2 (switchToConversation_switches_then_loads
                    (enabledContext []) "c1" 0 1 eq_refl)) None 2);
      reflexivity.
Defined.

End EnabledHooks.

(** ** Sorting: the order of the result *)

Section InsertionSort.
Context {A : Type} (compareFn : A -> A -> Z).

(** The comparator never puts two elements before each other. *)
Hypothesis compareFn_total :
  forall x y, (0 < compareFn x y)%Z -> (compareFn y x <= 0)%Z.

Lemma insertSorted_HdRel (R := fun a b => (compareFn a b <= 0)%Z)
    (y x : A) (l : list A) :
  R y x -> HdRel R y l -> HdRel R y (insertSorted compareFn x l).
Proof.
  intros Hyx Hl. destruct l as [|z l]; simpl.
  - now constructor.
  - destruct (compareFn x z <=? 0)%Z; constructor; [assumption|].
    now inversion Hl.
Qed.

Lemma insertSorted_Sorted (x : A) (l : list A) :
  Sorted (fun a b => (compareFn a b <= 0)%Z) l ->
  Sorted (fun a b => (compareFn a b <= 0)%Z) (insertSorted compareFn x l).
Proof.
  induction l as [|y l IH]; intros Hs; simpl.
  - repeat constructor.
  - destruct (Z.leb_spec (compareFn x y) 0) as [Hle|Hgt].
    + constructor; [assumption | now constructor].
    + inversion Hs as [|? ? Hs' Hhd]; subst.
      constructor; [now apply IH|].
      apply insertSorted_HdRel; [now apply compareFn_total | assumption].
Qed.

Lemma Array_sort_Sorted (l : list A) :
  Sorted (fun a b => (compareFn a b <= 0)%Z) (Array_sort compareFn l).
Proof.
  induction l as [|x l IH]; simpl; [constructor|].
  now apply insertSorted_Sorted.
Qed.

End InsertionSort.

Section SortedInput.
Context {A : Type} (compareFn : A -> A -> Z).

(** A list that is in order already is left as it is. *)
Lemma Array_sort_sorted_id (l : list A) :
  Sorted (fun a b => (compareFn a b <= 0)%Z) l ->
  Array_sort compareFn l = l.
Proof.
  induction l as [|x l IH]; intros Hs; simpl; [reflexivity|].
  inversion Hs as [|? ? Hs' Hhd]; subst. rewrite IH by assumption.
  destruct l as [|y l]; simpl; [reflexivity|].
  inversion Hhd as [|? ? Hxy]; subst.
  destruct (Z.leb_spec (compareFn x y) 0); [reflexivity | lia].
Qed.

Lemma Sorted_of_all_pairs (R : A -> A -> Prop) (l : list A) :
  (forall a b, In a l -> In b l -> R a b) -> Sorted R l.
Proof.
  induction l as [|x l IH]; intros Hall; [constructor|].
  constructor.
  - apply IH. intros a b Ha Hb. apply Hall; now right.
  - destruct l as [|y l]; constructor. apply Hall; [now left | right; now left].
Qed.

Lemma Sorted_weaken (R R' : A -> A -> Prop) (l : list A) :
  (forall a b, In a l -> In b l -> R a b -> R' a b) ->
  Sorted R l -> Sorted R' l.
Proof.
  induction l as [|x l IH]; intros Himp Hs; [constructor|].
  inversion Hs as [|? ? Hs' Hhd]; subst. constructor.
  - apply IH; [|assumption]. intros a b Ha Hb. apply Himp; now right.
  - destruct l as [|y l]; constructor. inversion Hhd; subst.
    apply Himp; [now left | right; now left | assumption].
Qed.

End SortedInput.

Section StringOrder.

Lemma ascii_compare_code (a b : ascii) :
  Ascii.compare a b = N.compare (JsString.code a) (JsString.code b).
Proof. reflexivity. Qed.

Lemma string_compare_lt_trans (a b c : string) :
  String.compare a b = Lt -> String.compare b c = Lt -> String.compare a c = Lt.
Proof.
  revert b c. induction a as [|x a IH]; intros [|y b] [|z c]; simpl;
    try discriminate; try reflexivity.
  rewrite !ascii_compare_code.
  destruct (N.compare_spec (JsString.code x) (JsString.code y)) as [Exy|Lxy|Gxy];
    try discriminate;
    destruct (N.compare_spec (JsString.code y) (JsString.code z)) as [Eyz|Lyz|Gyz];
    try discriminate; intros Hab Hbc.
  - rewrite Exy, Eyz, N.compare_refl. now apply (IH b c).
  - rewrite Exy. now apply N.compare_lt_iff in Lyz as ->.
  - rewrite <- Eyz. now apply N.compare_lt_iff in Lxy as ->.
  - assert (H : (JsString.code x < JsString.code z)%N) by lia.
    now apply N.compare_lt_iff in H as ->.
Qed.

Lemma string_leb_cases (a b : string) :
  String.leb a b = true <-> String.compare a b = Lt \/ a = b.
Proof.
  unfold String.leb. destruct (String.compare a b) eqn:Hc.
  - apply String.compare_eq_iff in Hc. tauto.
  - tauto.
  - split; [discriminate|]. intros [H|H]; [discriminate|].
    subst b. assert (E : String.compare a a = Eq).
    { clear Hc. induction a as [|x a IH]; simpl; [reflexivity|].
      rewrite ascii_compare_code, N.compare_refl. exact IH. }
    congruence.
Qed.

Lemma string_leb_trans (a b c : string) :
  String.leb a b = true -> String.leb b c = true -> String.leb a c = true.
Proof.
  rewrite !string_leb_cases. intros [Hab| ->] [Hbc| ->]; auto.
  left. eapply string_compare_lt_trans; eassumption.
Qed.

(** Not greater means less or equal. *)
Lemma string_not_gt_leb (a b : string) :
  String.ltb b a = false -> String.leb a b = true.
Proof.
  unfold String.ltb, String.leb. rewrite (String.compare_antisym b a).
  destruct (String.compare a b); simpl; congruence.
Qed.

Lemma string_ltb_leb (a b : string) :
  String.ltb a b = true -> String.leb a b = true.
Proof.
  unfold String.ltb, String.leb. destruct (String.compare a b); congruence.
Qed.

End StringOrder.

Section SortOrder.
Import Hooks.

Lemma byOrder_total (order : string) (p q : bool) :
  (0 < byOrder order p q)%Z -> (byOrder order q p <= 0)%Z.
Proof. unfold byOrder. destruct (String.eqb order "asc"), p, q; simpl; lia. Qed.

Lemma compareConversations_total (getTime : string -> option Z) (sortBy order : string) (x y : Conversation) :
  (0 < compareConversations getTime sortBy order x y)%Z ->
  (compareConversations getTime sortBy order y x <= 0)%Z.
Proof.
  unfold compareConversations, JsString.lt, JsString.gt.
  repeat match goal with |- context [if String.eqb sortBy ?k then _ else _] =>
    destruct (String.eqb sortBy k) end;
    try apply byOrder_total. lia.
Qed.

Lemma sortConversations_result {W : Type} (context : CopilotContext W)
    (getTime : string -> option Z) (r : nat) (sortBy order : option string)
    (h : Heap) (l : list Conversation) :
  h !! r = Some l ->
  isEnabled context = true ->
  let result := sortConversations context getTime r sortBy order h in
  snd result !! fst result
  = Some (Array_sort
            (compareConversations getTime
               (match sortBy with Some s => s | None => "updatedAt" end)
               (match order with Some s => s | None => "desc" end))
            l).
Proof.
  intros Hr Hen. unfold sortConversations. rewrite Hen. simpl negb. cbv iota.
  unfold alloc, sortInPlace. simpl. rewrite lookup_insert_eq.
  unfold deref at 1. rewrite lookup_insert_eq.
  unfold deref. now rewrite Hr.
Qed.

Lemma sortedContents_enabled {W : Type} (context : CopilotContext W)
    (getTime : string -> option Z) (r : nat) (sortBy order : option string)
    (h : Heap) (l : list Conversation) :
  h !! r = Some l ->
  isEnabled context = true ->
  sortedContents context getTime r sortBy order h
  = Array_sort
      (compareConversations getTime
         (match sortBy with Some s => s | None => "updatedAt" end)
         (match order with Some s => s | None => "desc" end))
      l.
Proof.
  intros Hr Hen. unfold sortedContents, deref.
  now rewrite (sortConversations_result context getTime r sortBy order h l Hr Hen).
Qed.

(** The result is in order for its comparator, whatever the key. *)
Lemma sortedContents_Sorted {W : Type} (context : CopilotContext W)
    (getTime : string -> option Z) (r : nat) (sortBy order : option string)
    (h : Heap) (l : list Conversation) :
  h !! r = Some l ->
  isEnabled context = true ->
  Sorted (fun a b =>
            (compareConversations getTime
               (match sortBy with Some s => s | None => "updatedAt" end)
               (match order with Some s => s | None => "desc" end) a b <= 0)%Z)
         (sortedContents context getTime r sortBy order h).
Proof.
  intros Hr Hen. rewrite (sortedContents_enabled context getTime r sortBy order h l Hr Hen).
  apply Array_sort_Sorted. intros x y. apply compareConversations_total.
Qed.

Lemma sortedContents_Permutation {W : Type} (context : CopilotContext W)
    (getTime : string -> option Z) (r : nat) (sortBy order : option string)
    (h : Heap) (l : list Conversation) :
  h !! r = Some l ->
  isEnabled context = true ->
  Permutation l (sortedContents context getTime r sortBy order h).
Proof.
  intros Hr Hen. rewrite (sortedContents_enabled context getTime r sortBy order h l Hr Hen).
  apply Array_sort_perm.
Qed.

Lemma byOrder_le (order : option string) (p q : bool) :
  (byOrder (match order with Some s => s | None => "desc" end) p q <= 0)%Z ->
  if ascending order then p = true \/ q = false else q = true \/ p = false.
Proof.
  unfold byOrder, ascending. destruct order as [o|]; simpl.
  - destruct (String.eqb o "asc"), p, q; simpl; intros; (lia || auto).
  - destruct p, q; simpl; intros; (lia || auto).
Qed.

Lemma num_lt_false_le (x y : Z) : num_lt (Some x) (Some y) = false -> (y <= x)%Z.
Proof. simpl. intros H. apply Z.ltb_ge in H. exact H. Qed.

Lemma num_lt_true_le (x y : Z) : num_lt (Some x) (Some y) = true -> (x <= y)%Z.
Proof. simpl. intros H. apply Z.ltb_lt in H. lia. Qed.

End SortOrder.

Section SortProperties.
Import Hooks.

Lemma messageCountOrZero_countOf (c : Conversation) :
  messageCountOrZero c = Some (countOf c).
Proof. unfold messageCountOrZero, countOf. destruct (messageCount c); reflexivity. Qed.

(** X22. Sorted by title, the array returned has its titles in order, case
    ignored: in non-decreasing order for "asc", in non-increasing order for
    every other order and when the order is left out. *)
Theorem sort_by_title_orders_the_titles {W : Type} (context : CopilotContext W)
    (getTime : string -> option Z) (r : nat) (order : option string)
    (h : Heap) (l : list Conversation) :
  h !! r = Some l ->
  isEnabled context = true ->
  StronglySorted
    (fun a b =>
       if ascending order
       then String.leb (lowerTitle a) (lowerTitle b) = true
       else String.leb (lowerTitle b) (lowerTitle a) = true)
    (sortedContents context getTime r (Some "title") order h).
Proof.
  intros Hr Hen. apply Sorted_StronglySorted.
  - intros a b c. destruct (ascending order); intros Hab Hbc;
      eapply string_leb_trans; eassumption.
  - eapply Sorted_weaken;
      [|exact (sortedContents_Sorted context getTime r (Some "title") order h l Hr Hen)].
    intros a b _ _ Hle. cbv beta in Hle. unfold compareConversations in Hle.
    cbn [String.eqb Ascii.eqb Bool.eqb] in Hle. cbv iota in Hle.
    apply byOrder_le in Hle. unfold JsString.lt, JsString.gt, lowerTitle in *.
    destruct (ascending order); destruct Hle as [H|H];
      (now apply string_ltb_leb) || (now apply string_not_gt_leb).
Qed.

Lemma sort_by_title_orders_the_titles_witness :
  StronglySorted
    (fun a b =>
       if ascending (Some "asc")
       then String.leb (lowerTitle a) (lowerTitle b) = true
       else String.leb (lowerTitle b) (lowerTitle a) = true)
    (sortedContents (enabledContext []) januaryDay 0 (Some "title") (Some "asc")
       {[ 0 := [tripPlanning; titledEAcute; budgetReview; titledAGrave] ]}).
Proof.
  apply (sort_by_title_orders_the_titles (enabledContext []) januaryDay 0 (Some "asc")
           {[ 0 := [tripPlanning; titledEAcute; budgetReview; titledAGrave] ]}
           [tripPlanning; titledEAcute; budgetReview; titledAGrave]);
    reflexivity.
Defined.

Example sort_by_title_mixed :
  sortedContents (enabledContext []) januaryDay 0 (Some "title") (Some "asc")
    {[ 0 := [tripPlanning; titledEAcute; budgetReview; titledAGrave] ]}
  = [budgetReview; tripPlanning; titledAGrave; titledEAcute].
Proof. vm_compute. reflexivity. Qed.

(** Titles are compared in lower case also outside ASCII: "É" is compared
    as "é", which comes after "à". *)
Example sort_by_title_latin1 :
  sortedContents (enabledContext []) januaryDay 0 (Some "title") (Some "asc")
    {[ 0 := [titledEAcute; titledAGrave] ]}
  = [titledAGrave; titledEAcute]
  /\ sortedContents (enabledContext []) januaryDay 0 (Some "title") (Some "asc")
    {[ 0 := [titledAGrave; titledEAcute] ]}
  = [titledAGrave; titledEAcute].
Proof. vm_compute. split; reflexivity. Qed.

(** X23. Sorted by message count, the array returned has its counts in
    order, a conversation without a count counting as 0: non-decreasing for
    "asc", non-increasing otherwise. *)
Theorem sort_by_messageCount_orders_the_counts {W : Type} (context : CopilotContext W)
    (getTime : string -> option Z) (r : nat) (order : option string)
    (h : Heap) (l : list Conversation) :
  h !! r = Some l ->
  isEnabled context = true ->
  StronglySorted
    (fun a b =>
       if ascending order
       then (countOf a <= countOf b)%Z
       else (countOf b <= countOf a)%Z)
    (sortedContents context getTime r (Some "messageCount") order h).
Proof.
  intros Hr Hen. apply Sorted_StronglySorted.
  - intros a b c. destruct (ascending order); intros Hab Hbc; lia.
  - eapply Sorted_weaken;
      [|exact (sortedContents_Sorted context getTime r (Some "messageCount") order h l Hr Hen)].
    intros a b _ _ Hle. cbv beta in Hle. unfold compareConversations in Hle.
    cbn [String.eqb Ascii.eqb Bool.eqb] in Hle. cbv iota in Hle.
    rewrite !messageCountOrZero_countOf in Hle.
    apply byOrder_le in Hle.
    destruct (ascending order); destruct Hle as [H|H];
      (now apply num_lt_true_le) || (now apply num_lt_false_le).
Qed.

Lemma sort_by_messageCount_orders_the_counts_witness :
  StronglySorted
    (fun a b =>
       if ascending None
       then (countOf a <= countOf b)%Z
       else (countOf b <= countOf a)%Z)
    (sortedContents (enabledContext []) lengthDate 0 (Some "messageCount") None
       {[ 0 := [budgetReview; tripPlanning] ]}).
Proof.
  apply (sort_by_messageCount_orders_the_counts (enabledContext []) lengthDate 0 None
           {[ 0 := [budgetReview; tripPlanning] ]} [budgetReview; tripPlanning]);
    reflexivity.
Defined.

Example sort_by_messageCount_desc :
  sortedContents (enabledContext []) lengthDate 0 (Some "messageCount") None
    {[ 0 := [budgetReview; tripPlanning] ]}
  = [tripPlanning; budgetReview].
Proof. vm_compute. reflexivity. Qed.

(** X24. Called without a key and without an order, [sortConversations]
    puts the most recently updated conversation first: when every
    [updatedAt] of the input is a valid date, the times of the array
    returned are in non-increasing order. *)
Theorem sort_default_is_most_recent_first {W : Type} (context : CopilotContext W)
    (getTime : string -> option Z) (r : nat) (h : Heap) (l : list Conversation) :
  h !! r = Some l ->
  isEnabled context = true ->
  Forall (fun c => getTime (updatedAt c) <> None) l ->
  StronglySorted
    (fun a b => (updatedTime getTime b <= updatedTime getTime a)%Z)
    (sortedContents context getTime r None None h).
Proof.
  intros Hr Hen Hvalid. apply Sorted_StronglySorted.
  - intros a b c Hab Hbc. lia.
  - assert (Hvalid' : Forall (fun c => getTime (updatedAt c) <> None)
                        (sortedContents context getTime r None None h)).
    { eapply Permutation_Forall; [|exact Hvalid].
      now apply sortedContents_Permutation. }
    rewrite List.Forall_forall in Hvalid'.
    eapply Sorted_weaken;
      [|exact (sortedContents_Sorted context getTime r None None h l Hr Hen)].
    intros a b Ha Hb Hle. cbv beta in Hle. unfold compareConversations in Hle.
    cbn [String.eqb Ascii.eqb Bool.eqb] in Hle. cbv iota in Hle.
    apply (byOrder_le None) in Hle. simpl in Hle. unfold updatedTime.
    pose proof (Hvalid' a Ha) as Hta. pose proof (Hvalid' b Hb) as Htb.
    destruct (getTime (updatedAt a)) as [ta|]; [|congruence].
    destruct (getTime (updatedAt b)) as [tb|]; [|congruence].
    destruct Hle as [H|H]; [now apply num_lt_true_le | now apply num_lt_false_le].
Qed.

Lemma sort_default_is_most_recent_first_witness :
  StronglySorted
    (fun a b => (updatedTime januaryDay b <= updatedTime januaryDay a)%Z)
    (sortedContents (enabledContext []) januaryDay 0 None None
       {[ 0 := [budgetReview; tripPlanning] ]}).
Proof.
  apply (sort_default_is_most_recent_first (enabledContext []) januaryDay 0
           {[ 0 := [budgetReview; tripPlanning] ]} [budgetReview; tripPlanning]);
    [reflexivity | reflexivity |].
  repeat constructor; discriminate.
Defined.

(** [budgetReview] was updated on the 2nd and [tripPlanning] on the 3rd:
    the default order puts [tripPlanning] first, the ascending order keeps
    [budgetReview] first. *)
Example sort_default_reorders :
  sortedContents (enabledContext []) januaryDay 0 None None
    {[ 0 := [budgetReview; tripPlanning] ]}
  = [tripPlanning; budgetReview]
  /\ sortedContents (enabledContext []) januaryDay 0 (Some "updatedAt") (Some "asc")
    {[ 0 := [budgetReview; tripPlanning] ]}
  = [budgetReview; tripPlanning].
Proof. vm_compute. split; reflexivity. Qed.

(** X25. With a key that is not one of title, createdAt, updatedAt and
    messageCount, the array returned is a copy in the order of the input. *)
Theorem sort_by_unknown_key_keeps_the_order {W : Type} (context : CopilotContext W)
    (getTime : string -> option Z) (r : nat) (sortBy : string)
    (order : option string) (h : Heap) (l : list Conversation) :
  h !! r = Some l ->
  isEnabled context = true ->
  knownSortKey sortBy = false ->
  sortedContents context getTime r (Some sortBy) order h = l.
Proof.
  intros Hr Hen Hkey.
  rewrite (sortedContents_enabled context getTime r (Some sortBy) order h l Hr Hen).
  apply Array_sort_sorted_id, Sorted_of_all_pairs. intros a b _ _.
  unfold knownSortKey in Hkey. rewrite !orb_false_iff in Hkey.
  destruct Hkey as (((H1 & H2) & H3) & H4).
  unfold compareConversations. rewrite H1, H2, H3, H4. lia.
Qed.

Lemma sort_by_unknown_key_keeps_the_order_witness :
  sortedContents (enabledContext []) lengthDate 0 (Some "Title") (Some "asc")
    {[ 0 := [tripPlanning; budgetReview] ]}
  = [tripPlanning; budgetReview].
Proof.
  apply (sort_by_unknown_key_keeps_the_order (enabledContext []) lengthDate 0
           "Title" (Some "asc")
           {[ 0 := [tripPlanning; budgetReview] ]} [tripPlanning; budgetReview]);
    reflexivity.
Defined.

(** X26. Dates that do not parse are not ordered: when no [updatedAt] of
    the input is a valid date, sorting by [updatedAt] (the default) returns
    a copy in the order of the input, for either order. *)
Theorem sort_by_invalid_dates_keeps_the_order {W : Type} (context : CopilotContext W)
    (getTime : string -> option Z) (r : nat) (order : option string)
    (h : Heap) (l : list Conversation) :
  h !! r = Some l ->
  isEnabled context = true ->
  Forall (fun c => getTime (updatedAt c) = None) l ->
  sortedContents context getTime r None order h = l.
Proof.
  intros Hr Hen Hnan.
  rewrite (sortedContents_enabled context getTime r None order h l Hr Hen).
  apply Array_sort_sorted_id, Sorted_of_all_pairs. intros a b Ha Hb.
  rewrite List.Forall_forall in Hnan.
  unfold compareConversations. cbn [String.eqb Ascii.eqb Bool.eqb]. cbv iota.
  rewrite (Hnan a Ha), (Hnan b Hb). unfold byOrder, num_lt.
  destruct (String.eqb _ "asc"); simpl; lia.
Qed.

Lemma sort_by_invalid_dates_keeps_the_order_witness :
  sortedContents (enabledContext []) invalidDate 0 None (Some "asc")
    {[ 0 := [tripPlanning; budgetReview] ]}
  = [tripPlanning; budgetReview].
Proof.
  apply (sort_by_invalid_dates_keeps_the_order (enabledContext []) invalidDate 0
           (Some "asc")
           {[ 0 := [tripPlanning; budgetReview] ]} [tripPlanning; budgetReview]);
    [reflexivity | reflexivity |].
  repeat constructor.
Defined.

(** X27. Sorting is idempotent: when the dates of the input are valid,
    sorting the array returned once more, by the same key and order, returns
    an array with the same contents. *)
Theorem sort_twice_is_sort_once {W : Type} (context : CopilotContext W)
    (getTime : string -> option Z) (r : nat) (sortBy order : option string)
    (h : Heap) (l : list Conversation) :
  h !! r = Some l ->
  isEnabled context = true ->
  Forall (fun c => getTime (createdAt c) <> None /\ getTime (updatedAt c) <> None) l ->
  let first := sortConversations context getTime r sortBy order h in
  sortedContents context getTime (fst first) sortBy order (snd first)
  = sortedContents context getTime r sortBy order h.
Proof.
  intros Hr Hen _ first.
  pose proof (sortConversations_result context getTime r sortBy order h l Hr Hen) as H1.
  cbv zeta in H1. fold first in H1.
  rewrite (sortedContents_enabled context getTime (fst first) sortBy order (snd first)
             _ H1 Hen).
  rewrite (sortedContents_enabled context getTime r sortBy order h l Hr Hen).
  apply Array_sort_sorted_id, Array_sort_Sorted.
  intros x y. apply compareConversations_total.
Qed.

Lemma sort_twice_is_sort_once_witness :
  let first :=
    sortConversations (enabledContext []) lengthDate 0 (Some "title") (Some "asc")
      {[ 0 := [tripPlanning; budgetReview] ]} in
  sortedContents (enabledContext []) lengthDate (fst first) (Some "title") (Some "asc")
    (snd first)
  = sortedContents (enabledContext []) lengthDate 0 (Some "title") (Some "asc")
      {[ 0 := [tripPlanning; budgetReview] ]}.
Proof.
  apply (sort_twice_is_sort_once (enabledContext []) lengthDate 0
           (Some "title") (Some "asc")
           {[ 0 := [tripPlanning; budgetReview] ]} [tripPlanning; budgetReview]);
    [reflexivity | reflexivity |].
  repeat constructor; discriminate.
Defined.

(** X28. [filterConversations] returns, in the order of the list, exactly
    the conversations that satisfy the predicate when the feature is
    enabled, and nothing when it is not (where [searchConversations]
    returns the whole list). *)
Theorem filterConversations_keeps_the_satisfying {W : Type}
    (context : CopilotContext W) (predicate : Conversation -> bool) :
  (forall c,
     In c (filterConversations context predicate) <->
     isEnabled context = true
     /\ In c (conversations (conversationState context))
     /\ predicate c = true)
  /\ sublist (filterConversations context predicate)
             (conversations (conversationState context)).
Proof.
  unfold filterConversations. destruct (isEnabled context); simpl.
  - split; [|apply filter_sublist].
    intros c. rewrite filter_In. tauto.
  - split; [|apply sublist_nil_l].
    intros c. split; [intros [] | intros (H & _); discriminate H].
Qed.

End SortProperties.
